(** * GraphRAG generation gateway

    A shallow embedding of the two generation servers of the repository,

    - [mcp-servers/generation-server/server.py]  (tool-style transport, module [Mcp])
    - [simple_generation_server.py]              (direct HTTP transport, module [Simple])

    together with the Python values and builtins they use.  Python code is
    rendered in a small monad [io] that threads the requests issued to the
    inference backend and the records written to the logger, and that
    carries raised exceptions.  The asynchronous functions are modelled as
    the sequential computations they await. *)

From Stdlib Require Import ZArith String Ascii SpecFloat.
From stdpp Require Import base option list strings pretty gmap fin_maps.

Set Default Proof Using "Type".
Local Open Scope Z_scope.

(** ** Python values

    [str] is kept as the sequence of bytes of its UTF-8 encoding, [int] is
    unbounded, [float] is an IEEE-754 binary64 number in the format of
    SpecFloat, and a [dict] (JSON object) has string keys. *)

#[warnings="-register-all"]
Inductive pyval : Type :=
| PyNone
| PyBool (b : bool)
| PyInt (z : Z)
| PyFloat (f : spec_float)
| PyStr (s : string)
| PyList (l : list pyval)
| PyDict (d : gmap string pyval).

(** Exceptions deriving from [Exception]: the class name and [str(e)]. *)
Record exn := Exc { exn_class : string; exn_str : string }.

(** [fastapi.HTTPException(status_code=..., detail=...)] *)
Inductive http_exn := HTTPException (status_code : Z) (detail : string).

(** The outcome of evaluating an expression: a value or a raised exception. *)
Inductive result (E A : Type) : Type :=
| Ok (a : A)
| Raise (e : E).
Arguments Ok {E A} a.
Arguments Raise {E A} e.

Definition result_bind {E A B} (f : A → result E B) (r : result E A) : result E B :=
  match r with
  | Ok a => f a
  | Raise e => Raise e
  end.

#[global] Instance result_mret {E} : MRet (result E) := λ _ a, Ok a.
#[global] Instance result_mbind {E} : MBind (result E) := λ _ _ f r, result_bind f r.

(** The line feed of the Python literal [\n]. *)
Definition LF : string := String (ascii_of_nat 10) EmptyString.

(** ** Builtins *)

Definition prec : Z := 53.
Definition emax : Z := 1024.

(** The float literals of the source. *)
Definition float_0_7 : spec_float := S754_finite false 6305039478318694 (-53).
Definition float_1e6 : spec_float := S754_finite false 8589934592000000 (-33).
Definition float_2_0 : spec_float := S754_finite false 4503599627370496 (-51).

Definition float_is_zero (f : spec_float) : bool :=
  match f with
  | S754_zero _ => true
  | _ => false
  end.

(** [bool(v)], the test of [if v:]. *)
Definition truthy (v : pyval) : bool :=
  match v with
  | PyNone => false
  | PyBool b => b
  | PyInt z => negb (z =? 0)
  | PyFloat f => negb (float_is_zero f)
  | PyStr s => match s with EmptyString => false | String _ _ => true end
  | PyList l => match l with [] => false | _ :: _ => true end
  | PyDict d => match map_to_list d with [] => false | _ :: _ => true end
  end.

(** [type(v).__name__] *)
Definition type_name (v : pyval) : string :=
  match v with
  | PyNone => "NoneType"
  | PyBool _ => "bool"
  | PyInt _ => "int"
  | PyFloat _ => "float"
  | PyStr _ => "str"
  | PyList _ => "list"
  | PyDict _ => "dict"
  end.

Definition AttributeError (msg : string) : exn := Exc "AttributeError" msg.
Definition TypeError (msg : string) : exn := Exc "TypeError" msg.
Definition ValueError (msg : string) : exn := Exc "ValueError" msg.
Definition OverflowError (msg : string) : exn := Exc "OverflowError" msg.
Definition ZeroDivisionError (msg : string) : exn := Exc "ZeroDivisionError" msg.

(** [d.get(key, default)] on a dict. *)
Definition dict_get (d : gmap string pyval) (key : string) (dflt : pyval) : pyval :=
  default dflt (d !! key).

(** [v.get(key, default)] on any value: only a dict has the method. *)
Definition py_get (v : pyval) (key : string) (dflt : pyval) : result exn pyval :=
  match v with
  | PyDict d => Ok (dict_get d key dflt)
  | _ => Raise (AttributeError ("'" +:+ type_name v +:+ "' object has no attribute 'get'"))
  end.

(** [float(z)] for an int: the nearest binary64 number, ties to even;
    CPython raises [OverflowError] when that number is not finite. *)
Definition int_to_float (z : Z) : result exn spec_float :=
  match binary_normalize prec emax z 0 false with
  | S754_infinity _ => Raise (OverflowError "int too large to convert to float")
  | f => Ok f
  end.

(** [x / y] on floats. *)
Definition float_truediv (x y : spec_float) : result exn pyval :=
  if float_is_zero y then Raise (ZeroDivisionError "float division by zero")
  else Ok (PyFloat (SFdiv prec emax x y)).

(** [v / y] for a float [y]: ints (and bools, which are ints) are converted
    to float first; other types do not support the operator. *)
Definition py_truediv_float (v : pyval) (y : spec_float) : result exn pyval :=
  match v with
  | PyInt z => x ← int_to_float z; float_truediv x y
  | PyBool b => x ← int_to_float (Z.b2z b); float_truediv x y
  | PyFloat x => float_truediv x y
  | _ => Raise (TypeError ("unsupported operand type(s) for /: '" +:+ type_name v
                           +:+ "' and 'float'"))
  end.

(** Whether a byte of the encoding continues the character begun by an
    earlier byte: the bytes 10xxxxxx. *)
Definition is_continuation (c : ascii) : bool :=
  match c with
  | Ascii _ _ _ _ _ _ b6 b7 => b7 && negb b6
  end.

(** The characters of the encoded [s], each the byte that begins it with
    the continuation bytes that follow, and before them the continuation
    bytes with which [s] starts (none in a well-formed encoding). *)
Fixpoint str_split (s : string) : string * list string :=
  match s with
  | EmptyString => (EmptyString, [])
  | String c s' =>
      let '(continuation, chars) := str_split s' in
      if is_continuation c then (String c continuation, chars)
      else (EmptyString, String c continuation :: chars)
  end.

(** The one-character strings of a [str]. *)
Definition str_chars (s : string) : list pyval :=
  let '(stray, chars) := str_split s in
  PyStr <$> match stray with
            | EmptyString => chars
            | String _ _ => stray :: chars
            end.

(** [iter(v)], as a list comprehension or [for] consumes it.  A dict yields
    its keys, here in the order of the map; the comprehensions of the
    source call [.get] on each element, which a key, being a [str], does
    not have, so that they do not depend on the order.  A [str] yields its
    characters. *)
Definition py_iter (v : pyval) : result exn (list pyval) :=
  match v with
  | PyList l => Ok l
  | PyStr s => Ok (str_chars s)
  | PyDict d => Ok (PyStr <$> (map_to_list d).*1)
  | _ => Raise (TypeError ("'" +:+ type_name v +:+ "' object is not iterable"))
  end.

(** [len(v)].  The length of a [str] is the number of its characters. *)
Definition py_len (v : pyval) : result exn pyval :=
  match v with
  | PyList l => Ok (PyInt (Z.of_nat (length l)))
  | PyStr s => Ok (PyInt (Z.of_nat (length (str_chars s))))
  | PyDict d => Ok (PyInt (Z.of_nat (size d)))
  | _ => Raise (TypeError ("object of type '" +:+ type_name v +:+ "' has no len()"))
  end.

(** [[f(x) for x in l]]: the first exception ends the comprehension. *)
Fixpoint comprehension {E A B} (f : A → result E B) (l : list A) : result E (list B) :=
  match l with
  | [] => Ok []
  | x :: l' => y ← f x; ys ← comprehension f l'; mret (y :: ys)
  end.

(** What the interpreter and its libraries compute and this development
    leaves open: the text of [str(v)] for floats and containers, the output
    of [json.dumps(v, indent=2)], and the error pydantic raises when
    [TextContent] is built with a [text] that is not a [str]. *)
Class PyRuntime := {
  repr_other : pyval → string;
  json_dumps : pyval → string;
  text_validation_error : pyval → exn;
}.

(** [str(v)], which is what a replacement field of an f-string inserts. *)
Definition py_str `{PyRuntime} (v : pyval) : string :=
  match v with
  | PyStr s => s
  | PyNone => "None"
  | PyBool true => "True"
  | PyBool false => "False"
  | PyInt z => pretty z
  | _ => repr_other v
  end.

(** ** The world outside: HTTP backend and logger *)

(** A request made through [httpx.AsyncClient]. *)
Record request := {
  rq_method : string;
  rq_url : string;
  rq_json : option pyval;
}.

(** An [httpx.Response], by what the code observes of it:
    [response.status_code], whether [response.raise_for_status()] raises,
    and what [response.json()] gives. *)
Record response := {
  resp_status : Z;
  raise_for_status : option exn;
  json : result exn pyval;
}.

(** [net] is the backend seen through httpx: a request is answered with a
    response, or the call raises (connection refused, timeout, ...).
    [sent] lists the requests issued so far and [logged] the records given
    to the logger, oldest first. *)
Record world := {
  net : request → result exn response;
  sent : list request;
  logged : list (string * string);
}.

Definition io (E A : Type) : Type := world → result E A * world.

Definition io_ret {E A} (a : A) : io E A := λ w, (Ok a, w).

Definition io_bind {E A B} (f : A → io E B) (m : io E A) : io E B :=
  λ w, match m w with
       | (Ok a, w') => f a w'
       | (Raise e, w') => (Raise e, w')
       end.

#[global] Instance io_mret {E} : MRet (io E) := λ _ a, io_ret a.
#[global] Instance io_mbind {E} : MBind (io E) := λ _ _ f m, io_bind f m.

(** [raise e] *)
Definition raise {E A} (e : E) : io E A := λ w, (Raise e, w).

(** An expression evaluated inside effectful code. *)
Definition eval {E A} (r : result E A) : io E A := λ w, (r, w).

(** [try: body / except Exception as e: handler(e)] *)
Definition try_except {E E' A} (body : io E A) (handler : E → io E' A) : io E' A :=
  λ w, match body w with
       | (Ok a, w') => (Ok a, w')
       | (Raise e, w') => handler e w'
       end.

Definition log (level msg : string) : io exn () :=
  λ w, (Ok (), {| net := net w; sent := sent w; logged := logged w ++ [(level, msg)] |}).

Definition logger_error (msg : string) : io exn () := log "ERROR" msg.
Definition logger_warning (msg : string) : io exn () := log "WARNING" msg.
Definition logger_info (msg : string) : io exn () := log "INFO" msg.

Definition http_request (rq : request) : io exn response :=
  λ w, (net w rq, {| net := net w; sent := sent w ++ [rq]; logged := logged w |}).

(** [await client.get(url)] *)
Definition client_get (url : string) : io exn response :=
  http_request {| rq_method := "GET"; rq_url := url; rq_json := None |}.

(** [await client.post(url, json=payload)] *)
Definition client_post (url : string) (payload : pyval) : io exn response :=
  http_request {| rq_method := "POST"; rq_url := url; rq_json := Some payload |}.

(** [response.raise_for_status()] *)
Definition do_raise_for_status (r : response) : io exn () :=
  match raise_for_status r with
  | Some e => raise e
  | None => mret ()
  end.

(** [base_url.rstrip("/")] *)
Fixpoint rstrip_slash (s : string) : string :=
  match s with
  | EmptyString => EmptyString
  | String c s' =>
      match rstrip_slash s' with
      | EmptyString => if Ascii.eqb c "/" then EmptyString else String c EmptyString
      | r => String c r
      end
  end.

(** [payload["options"][key] = v] *)
Definition set_option (payload : gmap string pyval) (key : string) (v : pyval)
  : gmap string pyval :=
  alter (λ o, match o with
              | PyDict options => PyDict (<[key := v]> options)
              | _ => o
              end) "options" payload.

(** The exception with which one exchange with the backend fails in the
    clients' [try] blocks, if it does: the call itself raises, or
    [raise_for_status] does, or the body is not JSON. *)
Definition failure_of (r : result exn response) : option exn :=
  match r with
  | Raise e => Some e
  | Ok resp =>
      match raise_for_status resp with
      | Some e => Some e
      | None => match json resp with
                | Raise e => Some e
                | Ok _ => None
                end
      end
  end.

(** ** The tool-style transport: mcp-servers/generation-server/server.py *)

Module Mcp.

Record OllamaClient := { base_url : string }.

(** [OllamaClient.__init__] *)
Definition OllamaClient_init (url : string) : OllamaClient :=
  {| base_url := rstrip_slash url |}.

Section Client.
Context `{PyRuntime}.

Definition list_models (self : OllamaClient) : io exn pyval :=
  try_except
    (response ← client_get (base_url self +:+ "/api/tags");
     _ ← do_raise_for_status response;
     data ← eval (json response);
     eval (py_get data "models" (PyList [])))
    (λ e,
     _ ← logger_error ("Failed to list models: " +:+ exn_str e);
     mret (PyList [])).

Definition generate (self : OllamaClient)
    (prompt model system context temperature max_tokens : pyval) : io exn pyval :=
  let full_prompt :=
    if truthy context
    then PyStr ("Context:" +:+ LF +:+ py_str context +:+ LF +:+ LF
                +:+ "Question: " +:+ py_str prompt)
    else prompt in
  let payload : gmap string pyval :=
    {[ "model" := model;
       "prompt" := full_prompt;
       "stream" := PyBool false;
       "options" := PyDict {[ "temperature" := temperature ]} ]} in
  let payload := if truthy system then <["system" := system]> payload else payload in
  let payload :=
    if truthy max_tokens then set_option payload "num_predict" max_tokens else payload in
  try_except
    (response ← client_post (base_url self +:+ "/api/generate") (PyDict payload);
     _ ← do_raise_for_status response;
     result ← eval (json response);
     eval (py_get result "response" (PyStr EmptyString)))
    (λ e,
     _ ← logger_error ("Generation failed: " +:+ exn_str e);
     raise e).

Definition chat (self : OllamaClient)
    (messages model temperature max_tokens : pyval) : io exn pyval :=
  let payload : gmap string pyval :=
    {[ "model" := model;
       "messages" := messages;
       "stream" := PyBool false;
       "options" := PyDict {[ "temperature" := temperature ]} ]} in
  let payload :=
    if truthy max_tokens then set_option payload "num_predict" max_tokens else payload in
  try_except
    (response ← client_post (base_url self +:+ "/api/chat") (PyDict payload);
     _ ← do_raise_for_status response;
     result ← eval (json response);
     message ← eval (py_get result "message" (PyDict ∅));
     eval (py_get message "content" (PyStr EmptyString)))
    (λ e,
     _ ← logger_error ("Chat completion failed: " +:+ exn_str e);
     raise e).

Definition check_health (self : OllamaClient) : io exn bool :=
  try_except
    (response ← client_get (base_url self +:+ "/api/version");
     mret (resp_status response =? 200))
    (λ _ : exn, mret false).

End Client.

(** [ollama = OllamaClient()] *)
Definition ollama : OllamaClient := OllamaClient_init "http://localhost:11434".

(** [mcp.types.TextContent] *)
Record TextContent := { type : string; text : string }.

Section Handlers.
Context `{PyRuntime}.

(** [TextContent(type="text", text=v)]: the model validates that [text]
    is a [str]. *)
Definition TextContent_text (v : pyval) : result exn TextContent :=
  match v with
  | PyStr s => Ok {| type := "text"; text := s |}
  | _ => Raise (text_validation_error v)
  end.

Definition handle_call_tool (name : string) (arguments : gmap string pyval)
  : io exn (list TextContent) :=
  if String.eqb name "generate_text" then
    let prompt := dict_get arguments "prompt" (PyStr EmptyString) in
    let model := dict_get arguments "model" (PyStr "llama3.2:latest") in
    let max_tokens := dict_get arguments "max_tokens" PyNone in
    let temperature := dict_get arguments "temperature" (PyFloat float_0_7) in
    let context := dict_get arguments "context" PyNone in
    let system_prompt := dict_get arguments "system_prompt" PyNone in
    try_except
      (result ← generate ollama prompt model system_prompt context temperature max_tokens;
       content ← eval (TextContent_text result);
       mret [content])
      (λ e, mret [ {| type := "text"; text := "Generation failed: " +:+ exn_str e |} ])
  else if String.eqb name "chat_completion" then
    let messages := dict_get arguments "messages" (PyList []) in
    let model := dict_get arguments "model" (PyStr "llama3.2:latest") in
    let temperature := dict_get arguments "temperature" (PyFloat float_0_7) in
    let max_tokens := dict_get arguments "max_tokens" PyNone in
    try_except
      (result ← chat ollama messages model temperature max_tokens;
       content ← eval (TextContent_text result);
       mret [content])
      (λ e, mret [ {| type := "text"; text := "Chat completion failed: " +:+ exn_str e |} ])
  else if String.eqb name "list_models" then
    try_except
      (models ← list_models ollama;
       elements ← eval (py_iter models);
       model_list ← eval (comprehension (λ model, py_get model "name" (PyStr "unknown"))
                                        elements);
       let body : gmap string pyval :=
         {[ "available_models" := PyList model_list;
            "count" := PyInt (Z.of_nat (length model_list)) ]} in
       mret [ {| type := "text"; text := json_dumps (PyDict body) |} ])
      (λ e, mret [ {| type := "text"; text := "Failed to list models: " +:+ exn_str e |} ])
  else
    raise (ValueError ("Unknown tool: " +:+ name)).

End Handlers.

(** [mcp.types.Resource], with its fields [name] and [description]; [uri]
    is the text given to the constructor, which the model turns into an
    [AnyUrl]. *)
Record Resource := {
  uri : string;
  resource_name : string;
  resource_description : string;
  mimeType : string;
}.

(** [mcp.types.Tool], with its fields [name] and [description]. *)
Record Tool := {
  tool_name : string;
  tool_description : string;
  inputSchema : pyval;
}.

Definition handle_list_resources : list Resource :=
  [ {| uri := "generation://models";
       resource_name := "Available Models";
       resource_description := "List of available Ollama models";
       mimeType := "application/json" |};
    {| uri := "generation://health";
       resource_name := "Service Health";
       resource_description := "Health status of the generation service";
       mimeType := "application/json" |} ].

Definition handle_list_tools : list Tool :=
  [ {| tool_name := "generate_text";
       tool_description := "Generate text using Ollama LLM";
       inputSchema :=
         PyDict
           {[ "type" := PyStr "object";
              "properties" :=
                PyDict
                  {[ "prompt" :=
                       PyDict {[ "type" := PyStr "string";
                                 "description" := PyStr "The prompt for text generation" ]};
                     "model" :=
                       PyDict {[ "type" := PyStr "string";
                                 "description" := PyStr "The Ollama model to use";
                                 "default" := PyStr "llama3.2:latest" ]};
                     "max_tokens" :=
                       PyDict {[ "type" := PyStr "integer";
                                 "description" := PyStr "Maximum tokens to generate" ]};
                     "temperature" :=
                       PyDict {[ "type" := PyStr "number";
                                 "description" := PyStr "Sampling temperature (0.0 to 1.0)";
                                 "default" := PyFloat float_0_7 ]};
                     "context" :=
                       PyDict {[ "type" := PyStr "string";
                                 "description" := PyStr "Additional context from retrieval" ]};
                     "system_prompt" :=
                       PyDict {[ "type" := PyStr "string";
                                 "description" := PyStr "System prompt for the model" ]} ]};
              "required" := PyList [PyStr "prompt"] ]} |};
    {| tool_name := "chat_completion";
       tool_description := "Chat completion using Ollama LLM";
       inputSchema :=
         PyDict
           {[ "type" := PyStr "object";
              "properties" :=
                PyDict
                  {[ "messages" :=
                       PyDict
                         {[ "type" := PyStr "array";
                            "items" :=
                              PyDict
                                {[ "type" := PyStr "object";
                                   "properties" :=
                                     PyDict
                                       {[ "role" :=
                                            PyDict {[ "type" := PyStr "string";
                                                      "enum" := PyList [PyStr "system";
                                                                        PyStr "user";
                                                                        PyStr "assistant"] ]};
                                          "content" :=
                                            PyDict {[ "type" := PyStr "string" ]} ]};
                                   "required" := PyList [PyStr "role"; PyStr "content"] ]};
                            "description" := PyStr "List of chat messages" ]};
                     "model" :=
                       PyDict {[ "type" := PyStr "string";
                                 "description" := PyStr "The Ollama model to use";
                                 "default" := PyStr "llama3.2:latest" ]};
                     "temperature" :=
                       PyDict {[ "type" := PyStr "number";
                                 "description" := PyStr "Sampling temperature (0.0 to 1.0)";
                                 "default" := PyFloat float_0_7 ]};
                     "max_tokens" :=
                       PyDict {[ "type" := PyStr "integer";
                                 "description" := PyStr "Maximum tokens to generate" ]} ]};
              "required" := PyList [PyStr "messages"] ]} |};
    {| tool_name := "list_models";
       tool_description := "List available Ollama models";
       inputSchema :=
         PyDict {[ "type" := PyStr "object"; "properties" := PyDict ∅ ]} |} ].

(** The value handed to [handle_read_resource] as [uri]: a [str], as the
    annotation of the parameter says, or the [AnyUrl] into which the server
    has parsed the URI of the request before it dispatches the read.
    Either comes with its text, [str(uri)]. *)
Inductive uri_value :=
| UriStr (s : string)
| UriAnyUrl (s : string).

(** [str(uri)], which is what the f-string inserts. *)
Definition uri_str (uri : uri_value) : string :=
  match uri with
  | UriStr s => s
  | UriAnyUrl s => s
  end.

(** [uri == literal] for a [str] literal: an [AnyUrl] is not equal to any
    [str]. *)
Definition uri_eq (uri : uri_value) (literal : string) : bool :=
  match uri with
  | UriStr s => String.eqb s literal
  | UriAnyUrl _ => false
  end.

Section Surface.
Context `{PyRuntime}.

Definition handle_read_resource (uri : uri_value) : io exn string :=
  if uri_eq uri "generation://models" then
    models ← list_models ollama;
    mret (json_dumps (PyDict {[ "models" := models ]}))
  else if uri_eq uri "generation://health" then
    health ← check_health ollama;
    mret (json_dumps (PyDict {[ "healthy" := PyBool health;
                                "service" := PyStr "ollama" ]}))
  else
    raise (ValueError ("Unknown resource: " +:+ uri_str uri)).

(** The statements of [main] that come before the server loop is entered:
    the health check at startup. *)
Definition main_startup : io exn () :=
  health ← check_health ollama;
  if negb health then
    logger_warning
      "Ollama service not accessible at startup. Please ensure Ollama is running."
  else
    models ← list_models ollama;
    count ← eval (py_len models);
    logger_info ("Connected to Ollama. Available models: " +:+ py_str count).

End Surface.

End Mcp.

(** ** The direct transport: simple_generation_server.py *)

Module Simple.

(** The request models.  A field declared without default is required, so
    a request that reaches a handler always has it. *)
Record GenerateRequest := {
  prompt : string;
  model : string;                    (* = "llama3.2:latest" *)
  temperature : spec_float;          (* = 0.7 *)
  max_tokens : option Z;             (* = None *)
  context : option string;           (* = None *)
  system_prompt : option string;     (* = None *)
}.

Record ChatMessage := { role : string; content : string }.

(** The fields [model], [temperature] and [max_tokens] of [ChatRequest]. *)
Record ChatRequest := {
  messages : list ChatMessage;
  chat_model : string;
  chat_temperature : spec_float;
  chat_max_tokens : option Z;
}.

(** An [Optional[...]] attribute as a Python value. *)
Definition optional {A} (inj : A → pyval) (o : option A) : pyval :=
  match o with
  | Some a => inj a
  | None => PyNone
  end.

Record OllamaClient := { base_url : string }.

(** [OllamaClient.__init__] *)
Definition OllamaClient_init (url : string) : OllamaClient :=
  {| base_url := rstrip_slash url |}.

Section Client.
Context `{PyRuntime}.

Definition list_models (self : OllamaClient) : io exn pyval :=
  try_except
    (response ← client_get (base_url self +:+ "/api/tags");
     _ ← do_raise_for_status response;
     eval (json response))
    (λ e,
     _ ← logger_error ("Failed to list models: " +:+ exn_str e);
     raise e).

Definition generate (self : OllamaClient)
    (prompt model system context temperature max_tokens : pyval) : io exn pyval :=
  let full_prompt :=
    if truthy context
    then PyStr ("Context:" +:+ LF +:+ py_str context +:+ LF +:+ LF
                +:+ "Question: " +:+ py_str prompt)
    else prompt in
  let payload : gmap string pyval :=
    {[ "model" := model;
       "prompt" := full_prompt;
       "stream" := PyBool false;
       "options" := PyDict {[ "temperature" := temperature ]} ]} in
  let payload := if truthy system then <["system" := system]> payload else payload in
  let payload :=
    if truthy max_tokens then set_option payload "num_predict" max_tokens else payload in
  try_except
    (response ← client_post (base_url self +:+ "/api/generate") (PyDict payload);
     _ ← do_raise_for_status response;
     eval (json response))
    (λ e,
     _ ← logger_error ("Generation failed: " +:+ exn_str e);
     raise e).

Definition chat (self : OllamaClient)
    (messages model temperature max_tokens : pyval) : io exn pyval :=
  let payload : gmap string pyval :=
    {[ "model" := model;
       "messages" := messages;
       "stream" := PyBool false;
       "options" := PyDict {[ "temperature" := temperature ]} ]} in
  let payload :=
    if truthy max_tokens then set_option payload "num_predict" max_tokens else payload in
  try_except
    (response ← client_post (base_url self +:+ "/api/chat") (PyDict payload);
     _ ← do_raise_for_status response;
     eval (json response))
    (λ e,
     _ ← logger_error ("Chat completion failed: " +:+ exn_str e);
     raise e).

Definition check_health (self : OllamaClient) : io exn bool :=
  try_except
    (response ← client_get (base_url self +:+ "/api/version");
     mret (resp_status response =? 200))
    (λ _ : exn, mret false).

End Client.

(** [ollama = OllamaClient()] *)
Definition ollama : OllamaClient := OllamaClient_init "http://localhost:11434".

Section Endpoints.
Context `{PyRuntime}.

(** [GET /models] *)
Definition models_endpoint : io http_exn (gmap string pyval) :=
  try_except
    (models_response ← list_models ollama;
     models ← eval (py_get models_response "models" (PyList []));
     elements ← eval (py_iter models);
     names ← eval (comprehension (λ model, py_get model "name" PyNone) elements);
     count ← eval (py_len models);
     mret ({[ "models" := PyList names; "count" := count ]} : gmap string pyval))
    (λ e, raise (HTTPException 500 ("Failed to list models: " +:+ exn_str e))).

(** [POST /generate] *)
Definition generate_text (request : GenerateRequest) : io http_exn (gmap string pyval) :=
  try_except
    (result ← generate ollama
                (PyStr (prompt request))
                (PyStr (model request))
                (optional PyStr (system_prompt request))
                (optional PyStr (context request))
                (PyFloat (temperature request))
                (optional PyInt (max_tokens request));
     text ← eval (py_get result "response" (PyStr EmptyString));
     eval_count ← eval (py_get result "eval_count" (PyInt 0));
     eval_duration ← eval (py_get result "eval_duration" (PyInt 0));
     eval_duration_ms ← eval (py_truediv_float eval_duration float_1e6);
     mret ({[ "text" := text;
              "model" := PyStr (model request);
              "eval_count" := eval_count;
              "eval_duration_ms" := eval_duration_ms ]} : gmap string pyval))
    (λ e, raise (HTTPException 500 ("Generation failed: " +:+ exn_str e))).

(** [{"role": msg.role, "content": msg.content}] *)
Definition message_dict (msg : ChatMessage) : pyval :=
  PyDict {[ "role" := PyStr (role msg); "content" := PyStr (content msg) ]}.

(** [POST /chat] *)
Definition chat_completion (request : ChatRequest) : io http_exn (gmap string pyval) :=
  try_except
    (let messages := PyList (message_dict <$> messages request) in
     result ← chat ollama
                messages
                (PyStr (chat_model request))
                (PyFloat (chat_temperature request))
                (optional PyInt (chat_max_tokens request));
     message ← eval (py_get result "message" (PyDict ∅));
     eval_count ← eval (py_get result "eval_count" (PyInt 0));
     eval_duration ← eval (py_get result "eval_duration" (PyInt 0));
     eval_duration_ms ← eval (py_truediv_float eval_duration float_1e6);
     mret ({[ "message" := message;
              "model" := PyStr (chat_model request);
              "eval_count" := eval_count;
              "eval_duration_ms" := eval_duration_ms ]} : gmap string pyval))
    (λ e, raise (HTTPException 500 ("Chat completion failed: " +:+ exn_str e))).

End Endpoints.

Section Service.
Context `{PyRuntime}.

(** [@app.on_event("startup")] *)
Definition startup_event : io exn () :=
  health ← check_health ollama;
  if negb health then
    logger_warning "Ollama service not accessible at startup!"
  else
    models ← list_models ollama;
    listed ← eval (py_get models "models" (PyList []));
    model_count ← eval (py_len listed);
    logger_info ("Connected to Ollama. Available models: " +:+ py_str model_count).

(** [GET /] *)
Definition root : io exn (gmap string pyval) :=
  mret ({[ "service" := PyStr "GraphRAG Generation Server";
           "status" := PyStr "running";
           "ollama_url" := PyStr (base_url ollama) ]} : gmap string pyval).

(** [GET /health] *)
Definition health_check : io exn (gmap string pyval) :=
  ollama_healthy ← check_health ollama;
  mret ({[ "status" := PyStr (if ollama_healthy : bool then "healthy" else "unhealthy");
           "ollama_connected" := PyBool ollama_healthy ]} : gmap string pyval).

End Service.

End Simple.

(** ** Vocabulary of the statements *)

Definition post_request (url : string) (payload : gmap string pyval) : request :=
  {| rq_method := "POST"; rq_url := url; rq_json := Some (PyDict payload) |}.

Definition get_request (url : string) : request :=
  {| rq_method := "GET"; rq_url := url; rq_json := None |}.

(** The JSON value one exchange delivers to the code after its [try] block
    has called [raise_for_status()] and [json()], or the exception raised
    on the way. *)
Definition exchange (r : result exn response) : result exn pyval :=
  match r with
  | Raise e => Raise e
  | Ok resp =>
      match raise_for_status resp with
      | Some e => Raise e
      | None => json resp
      end
  end.

(** The world after a client method has issued [rq] and ended with [r]:
    the request is recorded, and a failure is logged under [label]. *)
Definition after_call {A} (w : world) (rq : request) (label : string) (r : result exn A)
  : world :=
  {| net := net w;
     sent := sent w ++ [rq];
     logged := match r with
               | Raise e => logged w ++ [("ERROR", label +:+ exn_str e)]
               | Ok _ => logged w
               end |}.

(** The body [OllamaClient.generate] posts; both clients build it with the
    same statements. *)
Definition generate_payload `{PyRuntime}
    (prompt model system context temperature max_tokens : pyval) : gmap string pyval :=
  let full_prompt :=
    if truthy context
    then PyStr ("Context:" +:+ LF +:+ py_str context +:+ LF +:+ LF
                +:+ "Question: " +:+ py_str prompt)
    else prompt in
  let options : gmap string pyval :=
    if truthy max_tokens
    then <["num_predict" := max_tokens]> {[ "temperature" := temperature ]}
    else {[ "temperature" := temperature ]} in
  let payload : gmap string pyval :=
    {[ "model" := model;
       "prompt" := full_prompt;
       "stream" := PyBool false;
       "options" := PyDict options ]} in
  if truthy system then <["system" := system]> payload else payload.

(** The body [OllamaClient.chat] posts. *)
Definition chat_payload (messages model temperature max_tokens : pyval)
  : gmap string pyval :=
  let options : gmap string pyval :=
    if truthy max_tokens
    then <["num_predict" := max_tokens]> {[ "temperature" := temperature ]}
    else {[ "temperature" := temperature ]} in
  {[ "model" := model;
     "messages" := messages;
     "stream" := PyBool false;
     "options" := PyDict options ]}.

Definition generate_url : string := "http://localhost:11434/api/generate".
Definition chat_url : string := "http://localhost:11434/api/chat".
Definition tags_url : string := "http://localhost:11434/api/tags".
Definition version_url : string := "http://localhost:11434/api/version".

(** The bodies the handlers have their client post, from the handler's
    input. *)
Definition tool_generate_payload `{PyRuntime} (arguments : gmap string pyval)
  : gmap string pyval :=
  generate_payload (dict_get arguments "prompt" (PyStr EmptyString))
                   (dict_get arguments "model" (PyStr "llama3.2:latest"))
                   (dict_get arguments "system_prompt" PyNone)
                   (dict_get arguments "context" PyNone)
                   (dict_get arguments "temperature" (PyFloat float_0_7))
                   (dict_get arguments "max_tokens" PyNone).

Definition tool_chat_payload (arguments : gmap string pyval) : gmap string pyval :=
  chat_payload (dict_get arguments "messages" (PyList []))
               (dict_get arguments "model" (PyStr "llama3.2:latest"))
               (dict_get arguments "temperature" (PyFloat float_0_7))
               (dict_get arguments "max_tokens" PyNone).

Definition direct_generate_payload `{PyRuntime} (request : Simple.GenerateRequest)
  : gmap string pyval :=
  generate_payload (PyStr (Simple.prompt request))
                   (PyStr (Simple.model request))
                   (Simple.optional PyStr (Simple.system_prompt request))
                   (Simple.optional PyStr (Simple.context request))
                   (PyFloat (Simple.temperature request))
                   (Simple.optional PyInt (Simple.max_tokens request)).

Definition direct_chat_payload (request : Simple.ChatRequest) : gmap string pyval :=
  chat_payload (PyList (Simple.message_dict <$> Simple.messages request))
               (PyStr (Simple.chat_model request))
               (PyFloat (Simple.chat_temperature request))
               (Simple.optional PyInt (Simple.chat_max_tokens request)).

(** The single text block a tool call answers with. *)
Definition text_content (s : string) : list Mcp.TextContent :=
  [ {| Mcp.type := "text"; Mcp.text := s |} ].

(** What [POST /generate] answers when the client call has ended with [r]. *)
Definition generate_text_answer (request : Simple.GenerateRequest) (r : result exn pyval)
  : result exn (gmap string pyval) :=
  result ← r;
  text ← py_get result "response" (PyStr EmptyString);
  eval_count ← py_get result "eval_count" (PyInt 0);
  eval_duration ← py_get result "eval_duration" (PyInt 0);
  eval_duration_ms ← py_truediv_float eval_duration float_1e6;
  mret ({[ "text" := text;
           "model" := PyStr (Simple.model request);
           "eval_count" := eval_count;
           "eval_duration_ms" := eval_duration_ms ]} : gmap string pyval).

(** What [POST /chat] answers when the client call has ended with [r]. *)
Definition chat_completion_answer (request : Simple.ChatRequest) (r : result exn pyval)
  : result exn (gmap string pyval) :=
  result ← r;
  message ← py_get result "message" (PyDict ∅);
  eval_count ← py_get result "eval_count" (PyInt 0);
  eval_duration ← py_get result "eval_duration" (PyInt 0);
  eval_duration_ms ← py_truediv_float eval_duration float_1e6;
  mret ({[ "message" := message;
           "model" := PyStr (Simple.chat_model request);
           "eval_count" := eval_count;
           "eval_duration_ms" := eval_duration_ms ]} : gmap string pyval).

(** [except Exception as e: raise HTTPException(500, f"{label}{e}")] *)
Definition as_http_error {A} (label : string) (r : result exn A) : result http_exn A :=
  match r with
  | Ok a => Ok a
  | Raise e => Raise (HTTPException 500 (label +:+ exn_str e))
  end.

(** ** Sample backends and inputs, for the examples *)

Definition sample_runtime : PyRuntime :=
  {| repr_other := λ _, "<object>";
     json_dumps := λ _, "{}";
     text_validation_error := λ _, Exc "ValidationError" "Input should be a valid string" |}.

(** A response with status 200 and JSON body [v]. *)
Definition reply (v : pyval) : response :=
  {| resp_status := 200; raise_for_status := None; json := Ok v |}.

(** A backend that answers every request with [reply v]. *)
Definition answering (v : pyval) : world :=
  {| net := λ _, Ok (reply v); sent := []; logged := [] |}.

Definition connect_error : exn := Exc "ConnectError" "All connection attempts failed".

(** A backend no request reaches. *)
Definition unreachable : world :=
  {| net := λ _, Raise connect_error; sent := []; logged := [] |}.

Definition sample_body : pyval :=
  PyDict {[ "response" := PyStr "Graphs represent entities as nodes.";
            "eval_count" := PyInt 7;
            "eval_duration" := PyInt 2000000 ]}.

Definition sample_request : Simple.GenerateRequest :=
  {| Simple.prompt := "What is a knowledge graph?";
     Simple.model := "llama3.2:latest";
     Simple.temperature := float_0_7;
     Simple.max_tokens := None;
     Simple.context := None;
     Simple.system_prompt := None |}.

Definition sample_arguments : gmap string pyval :=
  {[ "prompt" := PyStr "What is a knowledge graph?" ]}.

(** [request] with another [context]. *)
Definition with_context (c : option string) (request : Simple.GenerateRequest)
  : Simple.GenerateRequest :=
  {| Simple.prompt := Simple.prompt request;
     Simple.model := Simple.model request;
     Simple.temperature := Simple.temperature request;
     Simple.max_tokens := Simple.max_tokens request;
     Simple.context := c;
     Simple.system_prompt := Simple.system_prompt request |}.

(** [request] with another [max_tokens]. *)
Definition with_max_tokens (n : option Z) (request : Simple.GenerateRequest)
  : Simple.GenerateRequest :=
  {| Simple.prompt := Simple.prompt request;
     Simple.model := Simple.model request;
     Simple.temperature := Simple.temperature request;
     Simple.max_tokens := n;
     Simple.context := Simple.context request;
     Simple.system_prompt := Simple.system_prompt request |}.

Definition chat_with_max_tokens (n : option Z) (request : Simple.ChatRequest)
  : Simple.ChatRequest :=
  {| Simple.messages := Simple.messages request;
     Simple.chat_model := Simple.chat_model request;
     Simple.chat_temperature := Simple.chat_temperature request;
     Simple.chat_max_tokens := n |}.

Definition sample_chat_request : Simple.ChatRequest :=
  {| Simple.messages := [ {| Simple.role := "user"; Simple.content := "Hello" |} ];
     Simple.chat_model := "llama3.2:latest";
     Simple.chat_temperature := float_0_7;
     Simple.chat_max_tokens := None |}.

Definition sample_chat_arguments : gmap string pyval :=
  {[ "messages" := PyList [ PyDict {[ "role" := PyStr "user";
                                      "content" := PyStr "Hello" ]} ] ]}.

(** HTTP status codes of the success class. *)
Definition is_success (status : Z) : bool := (200 <=? status) && (status <? 300).

Definition empty_prompt_request : Simple.GenerateRequest :=
  {| Simple.prompt := EmptyString;
     Simple.model := "llama3.2:latest";
     Simple.temperature := float_0_7;
     Simple.max_tokens := None;
     Simple.context := None;
     Simple.system_prompt := None |}.

Definition empty_prompt_arguments : gmap string pyval :=
  {[ "prompt" := PyStr EmptyString ]}.

Definition empty_chat_arguments : gmap string pyval :=
  {[ "messages" := PyList [] ]}.

Definition empty_chat_request : Simple.ChatRequest :=
  {| Simple.messages := [];
     Simple.chat_model := "llama3.2:latest";
     Simple.chat_temperature := float_0_7;
     Simple.chat_max_tokens := None |}.

(** The float of 2_000_000. *)
Definition float_2e6 : spec_float := S754_finite false 8589934592000000 (-32).

(** A backend body with the given [eval_duration]. *)
Definition body_with_duration (d : Z) : pyval :=
  PyDict {[ "response" := PyStr "Graphs represent entities as nodes.";
            "eval_duration" := PyInt d ]}.

Definition sample_chat_body : pyval :=
  PyDict {[ "message" := PyDict {[ "role" := PyStr "assistant";
                                   "content" := PyStr "Hello!" ]};
            "eval_count" := PyInt 3;
            "eval_duration" := PyInt 2000000 ]}.

(** ** Equivalent inputs and typed answers, for comparing the transports *)







(** ** Vocabulary of the further properties *)

(** The names under which tools are listed, and the URIs under which
    resources are. *)
Definition listed_tool_names : list string := Mcp.tool_name <$> Mcp.handle_list_tools.
Definition listed_resource_uris : list string := Mcp.uri <$> Mcp.handle_list_resources.

(** The argument names an input schema declares under [properties]. *)
Definition declared_properties (schema : pyval) : gset string :=
  match schema with
  | PyDict d =>
      match d !! "properties" with
      | Some (PyDict properties) => dom properties
      | _ => ∅
      end
  | _ => ∅
  end.

(** The [default] an input schema declares for an argument, if any. *)
Definition declared_default (schema : pyval) (argument : string) : option pyval :=
  match schema with
  | PyDict d =>
      match d !! "properties" with
      | Some (PyDict properties) =>
          match properties !! argument with
          | Some (PyDict description) => description !! "default"
          | _ => None
          end
      | _ => None
      end
  | _ => None
  end.

(** [n] slashes. *)
Fixpoint slashes (n : nat) : string :=
  match n with
  | O => EmptyString
  | S n' => String "/" (slashes n')
  end.

Definition is_dict (v : pyval) : bool :=
  match v with
  | PyDict _ => true
  | _ => false
  end.

(** The [name] of a model entry, or [dflt]. *)
Definition name_or (dflt : pyval) (entry : pyval) : pyval :=
  match entry with
  | PyDict d => dict_get d "name" dflt
  | _ => dflt
  end.

(** A backend that answers the version call with status 200 and [reply v],
    and fails the listing of models with [e]. *)
Definition healthy_without_tags (v : pyval) (e : exn) : world :=
  {| net := λ rq, if String.eqb (rq_url rq) tags_url then Raise e else Ok (reply v);
     sent := [];
     logged := [] |}.

Definition sample_models : pyval :=
  PyDict {[ "models" := PyList [ PyDict {[ "name" := PyStr "llama3.2:latest";
                                             "size" := PyInt 2019393189 ]};
                                  PyDict {[ "size" := PyInt 42 ]} ] ]}.

(** The tool listed at position [i]. *)
Definition tool_at (i : nat) : Mcp.Tool :=
  default {| Mcp.tool_name := EmptyString;
             Mcp.tool_description := EmptyString;
             Mcp.inputSchema := PyNone |}
          (Mcp.handle_list_tools !! i).

(** What [GET /models] answers when the client call has ended with [r]. *)
Definition models_endpoint_answer (r : result exn pyval) : result exn (gmap string pyval) :=
  models_response ← r;
  models ← py_get models_response "models" (PyList []);
  elements ← py_iter models;
  names ← comprehension (λ model, py_get model "name" PyNone) elements;
  count ← py_len models;
  mret ({[ "models" := PyList names; "count" := count ]} : gmap string pyval).

(** Whether the backend answers the version call with status 200. *)
Definition backend_healthy (w : world) : bool :=
  match net w (get_request version_url) with
  | Ok resp => resp_status resp =? 200
  | Raise _ => false
  end.

(** [w] after one more request. *)
Definition after_request (w : world) (rq : request) : world :=
  {| net := net w; sent := sent w ++ [rq]; logged := logged w |}.

(** [w] after one more record in the log. *)
Definition after_log (w : world) (level msg : string) : world :=
  {| net := net w; sent := sent w; logged := logged w ++ [(level, msg)] |}.

(** Ints, bools and floats: the values on which [/] is defined. *)
Definition is_number (v : pyval) : bool :=
  match v with
  | PyInt _ | PyBool _ | PyFloat _ => true
  | _ => false
  end.

(** * Properties *)

Ltac run_io :=
  unfold try_except, mbind, mret, io_mbind, io_mret, io_bind, io_ret, raise, eval,
    client_post, client_get, http_request, do_raise_for_status, logger_error, log,
    after_call, exchange, post_request, get_request;
  cbn.

(** Case analysis on the answer of the backend to the request at hand. *)
Ltac by_exchange w :=
  run_io;
  destruct (net w _) as [?resp|?e]; cbn; [|reflexivity];
  destruct (raise_for_status _); cbn; [reflexivity|];
  destruct (json _) as [?v|?e]; cbn; [|reflexivity].

(** ** What the client methods do, one exchange each *)

Section Runs.
Context `{PyRuntime}.

(** The statements that assemble the body in [generate] give
    [generate_payload]. *)
Lemma generate_payload_built p m s c t mt (payload0 : gmap string pyval) :
  payload0 = {[ "model" := m;
                "prompt" := if truthy c
                            then PyStr ("Context:" +:+ LF +:+ py_str c +:+ LF +:+ LF
                                        +:+ "Question: " +:+ py_str p)
                            else p;
                "stream" := PyBool false;
                "options" := PyDict {[ "temperature" := t ]} ]} →
  (let payload := if truthy s then <["system" := s]> payload0 else payload0 in
   if truthy mt then set_option payload "num_predict" mt else payload)
  = generate_payload p m s c t mt.
Proof.
  intros ->. unfold generate_payload.
  destruct (truthy s), (truthy mt); reflexivity.
Qed.

Lemma chat_payload_built msgs m t mt (payload0 : gmap string pyval) :
  payload0 = {[ "model" := m;
                "messages" := msgs;
                "stream" := PyBool false;
                "options" := PyDict {[ "temperature" := t ]} ]} →
  (if truthy mt then set_option payload0 "num_predict" mt else payload0)
  = chat_payload msgs m t mt.
Proof.
  intros ->. unfold chat_payload. destruct (truthy mt); reflexivity.
Qed.

Lemma mcp_generate_run self p m s c t mt w :
  Mcp.generate self p m s c t mt w =
    let rq := post_request (Mcp.base_url self +:+ "/api/generate")
                           (generate_payload p m s c t mt) in
    let r := v ← exchange (net w rq); py_get v "response" (PyStr EmptyString) in
    (r, after_call w rq "Generation failed: " r).
Proof.
  unfold Mcp.generate. rewrite (generate_payload_built _ _ _ _ _ _ _ eq_refl).
  by_exchange w. destruct (py_get _ _ _); reflexivity.
Qed.

Lemma mcp_chat_run self msgs m t mt w :
  Mcp.chat self msgs m t mt w =
    let rq := post_request (Mcp.base_url self +:+ "/api/chat")
                           (chat_payload msgs m t mt) in
    let r := v ← exchange (net w rq);
             message ← py_get v "message" (PyDict ∅);
             py_get message "content" (PyStr EmptyString) in
    (r, after_call w rq "Chat completion failed: " r).
Proof.
  unfold Mcp.chat. rewrite (chat_payload_built _ _ _ _ _ eq_refl).
  by_exchange w. destruct (py_get _ _ _) as [message|]; cbn; [|reflexivity].
  destruct (py_get _ _ _); reflexivity.
Qed.

Lemma mcp_list_models_run self w :
  Mcp.list_models self w =
    let rq := get_request (Mcp.base_url self +:+ "/api/tags") in
    let r := v ← exchange (net w rq); py_get v "models" (PyList []) in
    (Ok (match r with Ok models => models | Raise _ => PyList [] end),
     after_call w rq "Failed to list models: " r).
Proof.
  unfold Mcp.list_models. by_exchange w. destruct (py_get _ _ _); reflexivity.
Qed.

Lemma mcp_check_health_run self w :
  Mcp.check_health self w =
    let rq := get_request (Mcp.base_url self +:+ "/api/version") in
    (Ok (match net w rq with
         | Ok resp => resp_status resp =? 200
         | Raise _ => false
         end),
     {| net := net w; sent := sent w ++ [rq]; logged := logged w |}).
Proof.
  unfold Mcp.check_health. run_io. destruct (net w _); reflexivity.
Qed.

Lemma simple_generate_run self p m s c t mt w :
  Simple.generate self p m s c t mt w =
    let rq := post_request (Simple.base_url self +:+ "/api/generate")
                           (generate_payload p m s c t mt) in
    let r := exchange (net w rq) in
    (r, after_call w rq "Generation failed: " r).
Proof.
  unfold Simple.generate. rewrite (generate_payload_built _ _ _ _ _ _ _ eq_refl).
  by_exchange w. reflexivity.
Qed.

Lemma simple_chat_run self msgs m t mt w :
  Simple.chat self msgs m t mt w =
    let rq := post_request (Simple.base_url self +:+ "/api/chat")
                           (chat_payload msgs m t mt) in
    let r := exchange (net w rq) in
    (r, after_call w rq "Chat completion failed: " r).
Proof.
  unfold Simple.chat. rewrite (chat_payload_built _ _ _ _ _ eq_refl).
  by_exchange w. reflexivity.
Qed.

Lemma simple_list_models_run self w :
  Simple.list_models self w =
    let rq := get_request (Simple.base_url self +:+ "/api/tags") in
    let r := exchange (net w rq) in
    (r, after_call w rq "Failed to list models: " r).
Proof.
  unfold Simple.list_models. by_exchange w. reflexivity.
Qed.

Lemma simple_check_health_run self w :
  Simple.check_health self w =
    let rq := get_request (Simple.base_url self +:+ "/api/version") in
    (Ok (match net w rq with
         | Ok resp => resp_status resp =? 200
         | Raise _ => false
         end),
     {| net := net w; sent := sent w ++ [rq]; logged := logged w |}).
Proof.
  unfold Simple.check_health. run_io. destruct (net w _); reflexivity.
Qed.

(** ** What the handlers do *)

Lemma tool_generate_text_run arguments w :
  Mcp.handle_call_tool "generate_text" arguments w =
    let rq := post_request generate_url (tool_generate_payload arguments) in
    let r := v ← exchange (net w rq); py_get v "response" (PyStr EmptyString) in
    (Ok (match r ≫= Mcp.TextContent_text with
         | Ok content => [content]
         | Raise e => text_content ("Generation failed: " +:+ exn_str e)
         end),
     after_call w rq "Generation failed: " r).
Proof.
  unfold Mcp.handle_call_tool. cbn [String.eqb Ascii.eqb Bool.eqb].
  unfold try_except at 1. unfold mbind at 1, io_mbind, io_bind.
  rewrite mcp_generate_run. cbn zeta.
  change (Mcp.base_url Mcp.ollama +:+ "/api/generate") with generate_url.
  fold (tool_generate_payload arguments).
  destruct (exchange _ ≫= _) as [v|e]; cbn; [|reflexivity].
  run_io. destruct (Mcp.TextContent_text v); reflexivity.
Qed.

Lemma tool_chat_completion_run arguments w :
  Mcp.handle_call_tool "chat_completion" arguments w =
    let rq := post_request chat_url (tool_chat_payload arguments) in
    let r := v ← exchange (net w rq);
             message ← py_get v "message" (PyDict ∅);
             py_get message "content" (PyStr EmptyString) in
    (Ok (match r ≫= Mcp.TextContent_text with
         | Ok content => [content]
         | Raise e => text_content ("Chat completion failed: " +:+ exn_str e)
         end),
     after_call w rq "Chat completion failed: " r).
Proof.
  unfold Mcp.handle_call_tool. cbn [String.eqb Ascii.eqb Bool.eqb].
  unfold try_except at 1. unfold mbind at 1, io_mbind, io_bind.
  rewrite mcp_chat_run. cbn zeta.
  change (Mcp.base_url Mcp.ollama +:+ "/api/chat") with chat_url.
  fold (tool_chat_payload arguments).
  destruct (exchange _ ≫= _) as [v|e]; cbn; [|reflexivity].
  run_io. destruct (Mcp.TextContent_text v); reflexivity.
Qed.

Lemma direct_generate_text_run request w :
  Simple.generate_text request w =
    let rq := post_request generate_url (direct_generate_payload request) in
    let r := exchange (net w rq) in
    (as_http_error "Generation failed: " (generate_text_answer request r),
     after_call w rq "Generation failed: " r).
Proof.
  unfold Simple.generate_text.
  unfold try_except at 1. unfold mbind at 1, io_mbind, io_bind.
  rewrite simple_generate_run. cbn zeta.
  change (Simple.base_url Simple.ollama +:+ "/api/generate") with generate_url.
  fold (direct_generate_payload request).
  unfold generate_text_answer.
  destruct (exchange _) as [v|e]; cbn; [|reflexivity].
  run_io. destruct (py_get v "response" _) as [text|]; cbn; [|reflexivity].
  destruct (py_get v "eval_count" _) as [n|]; cbn; [|reflexivity].
  destruct (py_get v "eval_duration" _) as [d|]; cbn; [|reflexivity].
  destruct (py_truediv_float d float_1e6); reflexivity.
Qed.

Lemma direct_chat_completion_run request w :
  Simple.chat_completion request w =
    let rq := post_request chat_url (direct_chat_payload request) in
    let r := exchange (net w rq) in
    (as_http_error "Chat completion failed: " (chat_completion_answer request r),
     after_call w rq "Chat completion failed: " r).
Proof.
  unfold Simple.chat_completion.
  unfold try_except at 1. unfold mbind at 1, io_mbind, io_bind.
  rewrite simple_chat_run. cbn zeta.
  change (Simple.base_url Simple.ollama +:+ "/api/chat") with chat_url.
  fold (direct_chat_payload request).
  unfold chat_completion_answer.
  destruct (exchange _) as [v|e]; cbn; [|reflexivity].
  run_io. destruct (py_get v "message" _) as [message|]; cbn; [|reflexivity].
  destruct (py_get v "eval_count" _) as [n|]; cbn; [|reflexivity].
  destruct (py_get v "eval_duration" _) as [d|]; cbn; [|reflexivity].
  destruct (py_truediv_float d float_1e6); reflexivity.
Qed.

(** ** Requests, failures and the entries of the posted bodies *)


Lemma failure_of_exchange r e : failure_of r = Some e ↔ exchange r = Raise e.
Proof.
  unfold failure_of, exchange. destruct r as [resp|e']; [|naive_solver].
  destruct (raise_for_status resp); [naive_solver|].
  destruct (json resp); naive_solver.
Qed.

Lemma generate_payload_prompt p m s c t mt :
  generate_payload p m s c t mt !! "prompt"
  = Some (if truthy c
          then PyStr ("Context:" +:+ LF +:+ py_str c +:+ LF +:+ LF
                      +:+ "Question: " +:+ py_str p)
          else p).
Proof. unfold generate_payload. destruct (truthy s); reflexivity. Qed.

Lemma generate_payload_options p m s c t mt :
  generate_payload p m s c t mt !! "options"
  = Some (PyDict (if truthy mt
                  then <["num_predict" := mt]> {[ "temperature" := t ]}
                  else {[ "temperature" := t ]})).
Proof. unfold generate_payload. destruct (truthy s); reflexivity. Qed.

Lemma chat_payload_options msgs m t mt :
  chat_payload msgs m t mt !! "options"
  = Some (PyDict (if truthy mt
                  then <["num_predict" := mt]> {[ "temperature" := t ]}
                  else {[ "temperature" := t ]})).
Proof. reflexivity. Qed.

Lemma chat_payload_messages msgs m t mt :
  chat_payload msgs m t mt !! "messages" = Some msgs.
Proof. reflexivity. Qed.

Lemma generate_payload_falsy_max_tokens p m s c t mt mt' :
  truthy mt = false → truthy mt' = false →
  generate_payload p m s c t mt = generate_payload p m s c t mt'.
Proof. intros Hmt Hmt'. unfold generate_payload. by rewrite Hmt, Hmt'. Qed.

Lemma chat_payload_falsy_max_tokens msgs m t mt mt' :
  truthy mt = false → truthy mt' = false →
  chat_payload msgs m t mt = chat_payload msgs m t mt'.
Proof. intros Hmt Hmt'. unfold chat_payload. by rewrite Hmt, Hmt'. Qed.

Lemma generate_payload_falsy_context p m s c c' t mt :
  truthy c = false → truthy c' = false →
  generate_payload p m s c t mt = generate_payload p m s c' t mt.
Proof. intros Hc Hc'. unfold generate_payload. by rewrite Hc, Hc'. Qed.

Lemma dict_get_Some (d : gmap string pyval) k v dflt :
  d !! k = Some v → dict_get d k dflt = v.
Proof. intros Hk. unfold dict_get. by rewrite Hk. Qed.

Lemma dict_get_None (d : gmap string pyval) k dflt :
  d !! k = None → dict_get d k dflt = dflt.
Proof. intros Hk. unfold dict_get. by rewrite Hk. Qed.

Lemma dict_get_delete_ne (d : gmap string pyval) k k' dflt :
  k ≠ k' → dict_get (delete k d) k' dflt = dict_get d k' dflt.
Proof. intros. unfold dict_get. by rewrite lookup_delete_ne. Qed.

Lemma dict_get_delete_eq (d : gmap string pyval) k dflt :
  dict_get (delete k d) k dflt = dflt.
Proof. unfold dict_get. by rewrite lookup_delete_eq. Qed.

End Runs.

(** ** Prompt composition *)

(** C1.  When a generation request carries a non-empty context string [C]
    and the prompt [P], the body posted to the backend has as its prompt
    exactly "Context:" LF [C] LF LF "Question: " [P], on the tool-style
    transport and on the direct transport alike. *)
Theorem generate_context_template `{PyRuntime} (C P : string)
    (arguments : gmap string pyval) (request : Simple.GenerateRequest) (w : world) :
  C ≠ EmptyString →
  arguments !! "context" = Some (PyStr C) →
  arguments !! "prompt" = Some (PyStr P) →
  Simple.context request = Some C →
  Simple.prompt request = P →
  let composed := PyStr ("Context:" +:+ LF +:+ C +:+ LF +:+ LF +:+ "Question: " +:+ P) in
  (∃ payload,
     sent (Mcp.handle_call_tool "generate_text" arguments w).2
       = sent w ++ [post_request generate_url payload]
     ∧ payload !! "prompt" = Some composed)
  ∧ (∃ payload,
       sent (Simple.generate_text request w).2
         = sent w ++ [post_request generate_url payload]
       ∧ payload !! "prompt" = Some composed).
Proof.
  intros HC Hctx Hp Hrc Hrp composed.
  assert (truthy (PyStr C) = true) as Htruthy by (by destruct C).
  split.
  - exists (tool_generate_payload arguments). rewrite tool_generate_text_run.
    split; [reflexivity|].
    unfold tool_generate_payload. rewrite generate_payload_prompt.
    rewrite (dict_get_Some _ _ _ _ Hctx), (dict_get_Some _ _ _ _ Hp).
    by rewrite Htruthy.
  - exists (direct_generate_payload request). rewrite direct_generate_text_run.
    split; [reflexivity|].
    unfold direct_generate_payload. rewrite generate_payload_prompt.
    rewrite Hrc, Hrp. cbn [Simple.optional]. by rewrite Htruthy.
Qed.

(** The template law on the context and question of the specified scenario. *)
Lemma generate_context_template_witness :
  let C := "Graphs represent entities as nodes." in
  let P := "What is a knowledge graph?" in
  let composed := PyStr ("Context:" +:+ LF +:+ C +:+ LF +:+ LF +:+ "Question: " +:+ P) in
  C ≠ EmptyString
  ∧ (∃ payload,
       sent (Mcp.handle_call_tool (H := sample_runtime) "generate_text"
               (<["context" := PyStr C]> sample_arguments) (answering sample_body)).2
         = [post_request generate_url payload]
       ∧ payload !! "prompt" = Some composed)
  ∧ (∃ payload,
       sent (Simple.generate_text (H := sample_runtime)
               (with_context (Some C) sample_request) (answering sample_body)).2
         = [post_request generate_url payload]
       ∧ payload !! "prompt" = Some composed).
Proof.
  intros C P composed. split; [discriminate|].
  apply (@generate_context_template sample_runtime C P
           (<["context" := PyStr C]> sample_arguments)
           (with_context (Some C) sample_request) (answering sample_body));
    [discriminate | reflexivity..].
Defined.

(** C2.  When the context field of a generation request is absent, the
    prompt posted to the backend is the prompt of the request, unchanged,
    on both transports. *)
Theorem generate_without_context `{PyRuntime}
    (arguments : gmap string pyval) (request : Simple.GenerateRequest) (w : world) :
  arguments !! "context" = None →
  Simple.context request = None →
  (∃ payload,
     sent (Mcp.handle_call_tool "generate_text" arguments w).2
       = sent w ++ [post_request generate_url payload]
     ∧ payload !! "prompt" = Some (dict_get arguments "prompt" (PyStr EmptyString)))
  ∧ (∃ payload,
       sent (Simple.generate_text request w).2
         = sent w ++ [post_request generate_url payload]
       ∧ payload !! "prompt" = Some (PyStr (Simple.prompt request))).
Proof.
  intros Hctx Hrc. split.
  - exists (tool_generate_payload arguments). rewrite tool_generate_text_run.
    split; [reflexivity|].
    unfold tool_generate_payload. rewrite generate_payload_prompt.
    by rewrite (dict_get_None _ "context" _ Hctx).
  - exists (direct_generate_payload request). rewrite direct_generate_text_run.
    split; [reflexivity|].
    unfold direct_generate_payload. rewrite generate_payload_prompt.
    by rewrite Hrc.
Qed.

(** A request with a prompt and nothing else, on both transports. *)
Lemma generate_without_context_witness :
  (∃ payload,
     sent (Mcp.handle_call_tool (H := sample_runtime) "generate_text"
             sample_arguments (answering sample_body)).2
       = [post_request generate_url payload]
     ∧ payload !! "prompt" = Some (PyStr "What is a knowledge graph?"))
  ∧ (∃ payload,
       sent (Simple.generate_text (H := sample_runtime)
               sample_request (answering sample_body)).2
         = [post_request generate_url payload]
       ∧ payload !! "prompt" = Some (PyStr "What is a knowledge graph?")).
Proof.
  apply (@generate_without_context sample_runtime sample_arguments sample_request
           (answering sample_body)); reflexivity.
Defined.

(** C9.  A context that is the empty string counts as no context: the
    prompt posted to the backend is the prompt of the request, the template
    is not applied, and the whole call runs as it does for the same request
    without the context field, on both transports. *)
Theorem generate_empty_context `{PyRuntime}
    (arguments : gmap string pyval) (request : Simple.GenerateRequest) (w : world) :
  arguments !! "context" = Some (PyStr EmptyString) →
  Simple.context request = Some EmptyString →
  (∃ payload,
     sent (Mcp.handle_call_tool "generate_text" arguments w).2
       = sent w ++ [post_request generate_url payload]
     ∧ payload !! "prompt" = Some (dict_get arguments "prompt" (PyStr EmptyString)))
  ∧ Mcp.handle_call_tool "generate_text" arguments w
    = Mcp.handle_call_tool "generate_text" (delete "context" arguments) w
  ∧ (∃ payload,
       sent (Simple.generate_text request w).2
         = sent w ++ [post_request generate_url payload]
       ∧ payload !! "prompt" = Some (PyStr (Simple.prompt request)))
  ∧ Simple.generate_text request w
    = Simple.generate_text (with_context None request) w.
Proof.
  intros Hctx Hrc. split_and!.
  - exists (tool_generate_payload arguments). rewrite tool_generate_text_run.
    split; [reflexivity|].
    unfold tool_generate_payload. rewrite generate_payload_prompt.
    by rewrite (dict_get_Some _ _ _ _ Hctx).
  - rewrite !tool_generate_text_run.
    assert (tool_generate_payload arguments
            = tool_generate_payload (delete "context" arguments)) as ->; [|reflexivity].
    unfold tool_generate_payload.
    rewrite (dict_get_delete_ne _ "context" "prompt"),
      (dict_get_delete_ne _ "context" "model"),
      (dict_get_delete_ne _ "context" "system_prompt"),
      (dict_get_delete_ne _ "context" "temperature"),
      (dict_get_delete_ne _ "context" "max_tokens") by done.
    apply generate_payload_falsy_context.
    + by rewrite (dict_get_Some _ _ _ _ Hctx).
    + by rewrite dict_get_delete_eq.
  - exists (direct_generate_payload request). rewrite direct_generate_text_run.
    split; [reflexivity|].
    unfold direct_generate_payload. rewrite generate_payload_prompt.
    by rewrite Hrc.
  - rewrite !direct_generate_text_run.
    assert (direct_generate_payload request
            = direct_generate_payload (with_context None request)) as ->; [|reflexivity].
    unfold direct_generate_payload, with_context. cbn. rewrite Hrc.
    by apply generate_payload_falsy_context.
Qed.

(** The same request with an empty context. *)
Lemma generate_empty_context_witness :
  let arguments := <["context" := PyStr EmptyString]> sample_arguments in
  let request := with_context (Some EmptyString) sample_request in
  let w := answering sample_body in
  (∃ payload,
     sent (Mcp.handle_call_tool (H := sample_runtime) "generate_text" arguments w).2
       = [post_request generate_url payload]
     ∧ payload !! "prompt" = Some (PyStr "What is a knowledge graph?"))
  ∧ Mcp.handle_call_tool (H := sample_runtime) "generate_text" arguments w
    = Mcp.handle_call_tool (H := sample_runtime) "generate_text"
        (delete "context" arguments) w
  ∧ (∃ payload,
       sent (Simple.generate_text (H := sample_runtime) request w).2
         = [post_request generate_url payload]
       ∧ payload !! "prompt" = Some (PyStr "What is a knowledge graph?"))
  ∧ Simple.generate_text (H := sample_runtime) request w
    = Simple.generate_text (H := sample_runtime) (with_context None request) w.
Proof.
  intros arguments request w.
  apply (@generate_empty_context sample_runtime arguments request w); reflexivity.
Defined.

(** ** Options of the posted body *)

(** C10.  When [max_tokens] is 0, or any other value Python takes as false,
    the options posted to the backend carry no [num_predict], and the call
    runs as it does with [max_tokens] unset; this holds for generate and
    for chat on both transports. *)
Theorem falsy_max_tokens_omits_num_predict `{PyRuntime}
    (arguments chat_arguments : gmap string pyval)
    (request : Simple.GenerateRequest) (chat_request : Simple.ChatRequest) (w : world) :
  truthy (dict_get arguments "max_tokens" PyNone) = false →
  truthy (dict_get chat_arguments "max_tokens" PyNone) = false →
  truthy (Simple.optional PyInt (Simple.max_tokens request)) = false →
  truthy (Simple.optional PyInt (Simple.chat_max_tokens chat_request)) = false →
  ((∃ payload options,
      sent (Mcp.handle_call_tool "generate_text" arguments w).2
        = sent w ++ [post_request generate_url payload]
      ∧ payload !! "options" = Some (PyDict options)
      ∧ options !! "num_predict" = None)
   ∧ Mcp.handle_call_tool "generate_text" arguments w
     = Mcp.handle_call_tool "generate_text" (delete "max_tokens" arguments) w)
  ∧ ((∃ payload options,
        sent (Mcp.handle_call_tool "chat_completion" chat_arguments w).2
          = sent w ++ [post_request chat_url payload]
        ∧ payload !! "options" = Some (PyDict options)
        ∧ options !! "num_predict" = None)
     ∧ Mcp.handle_call_tool "chat_completion" chat_arguments w
       = Mcp.handle_call_tool "chat_completion" (delete "max_tokens" chat_arguments) w)
  ∧ ((∃ payload options,
        sent (Simple.generate_text request w).2
          = sent w ++ [post_request generate_url payload]
        ∧ payload !! "options" = Some (PyDict options)
        ∧ options !! "num_predict" = None)
     ∧ Simple.generate_text request w
       = Simple.generate_text (with_max_tokens None request) w)
  ∧ ((∃ payload options,
        sent (Simple.chat_completion chat_request w).2
          = sent w ++ [post_request chat_url payload]
        ∧ payload !! "options" = Some (PyDict options)
        ∧ options !! "num_predict" = None)
     ∧ Simple.chat_completion chat_request w
       = Simple.chat_completion (chat_with_max_tokens None chat_request) w).
Proof.
  intros Hg Hc Hrg Hrc. split_and!.
  - eexists _, _. rewrite tool_generate_text_run. split; [reflexivity|].
    unfold tool_generate_payload. rewrite generate_payload_options, Hg. done.
  - rewrite !tool_generate_text_run.
    assert (tool_generate_payload arguments
            = tool_generate_payload (delete "max_tokens" arguments)) as ->; [|reflexivity].
    unfold tool_generate_payload.
    rewrite (dict_get_delete_ne _ "max_tokens" "prompt"),
      (dict_get_delete_ne _ "max_tokens" "model"),
      (dict_get_delete_ne _ "max_tokens" "system_prompt"),
      (dict_get_delete_ne _ "max_tokens" "temperature"),
      (dict_get_delete_ne _ "max_tokens" "context") by done.
    apply generate_payload_falsy_max_tokens; [done|].
    by rewrite dict_get_delete_eq.
  - eexists _, _. rewrite tool_chat_completion_run. split; [reflexivity|].
    unfold tool_chat_payload. rewrite chat_payload_options, Hc. done.
  - rewrite !tool_chat_completion_run.
    assert (tool_chat_payload chat_arguments
            = tool_chat_payload (delete "max_tokens" chat_arguments)) as ->; [|reflexivity].
    unfold tool_chat_payload.
    rewrite (dict_get_delete_ne _ "max_tokens" "messages"),
      (dict_get_delete_ne _ "max_tokens" "model"),
      (dict_get_delete_ne _ "max_tokens" "temperature") by done.
    apply chat_payload_falsy_max_tokens; [done|].
    by rewrite dict_get_delete_eq.
  - eexists _, _. rewrite direct_generate_text_run. split; [reflexivity|].
    unfold direct_generate_payload. rewrite generate_payload_options, Hrg. done.
  - rewrite !direct_generate_text_run.
    assert (direct_generate_payload request
            = direct_generate_payload (with_max_tokens None request)) as ->; [|reflexivity].
    unfold direct_generate_payload, with_max_tokens. cbn.
    by apply generate_payload_falsy_max_tokens.
  - eexists _, _. rewrite direct_chat_completion_run. split; [reflexivity|].
    unfold direct_chat_payload. rewrite chat_payload_options, Hrc. done.
  - rewrite !direct_chat_completion_run.
    assert (direct_chat_payload chat_request
            = direct_chat_payload (chat_with_max_tokens None chat_request)) as ->;
      [|reflexivity].
    unfold direct_chat_payload, chat_with_max_tokens. cbn.
    by apply chat_payload_falsy_max_tokens.
Qed.

(** The sample requests with [max_tokens] set to 0. *)
Lemma falsy_max_tokens_omits_num_predict_witness :
  let arguments := <["max_tokens" := PyInt 0]> sample_arguments in
  let chat_arguments := <["max_tokens" := PyInt 0]> sample_chat_arguments in
  let request := with_max_tokens (Some 0) sample_request in
  let chat_request := chat_with_max_tokens (Some 0) sample_chat_request in
  let w := answering sample_body in
  ((∃ payload options,
      sent (Mcp.handle_call_tool (H := sample_runtime) "generate_text" arguments w).2
        = [post_request generate_url payload]
      ∧ payload !! "options" = Some (PyDict options)
      ∧ options !! "num_predict" = None)
   ∧ Mcp.handle_call_tool (H := sample_runtime) "generate_text" arguments w
     = Mcp.handle_call_tool (H := sample_runtime) "generate_text"
         (delete "max_tokens" arguments) w)
  ∧ ((∃ payload options,
        sent (Mcp.handle_call_tool (H := sample_runtime) "chat_completion"
                chat_arguments w).2
          = [post_request chat_url payload]
        ∧ payload !! "options" = Some (PyDict options)
        ∧ options !! "num_predict" = None)
     ∧ Mcp.handle_call_tool (H := sample_runtime) "chat_completion" chat_arguments w
       = Mcp.handle_call_tool (H := sample_runtime) "chat_completion"
           (delete "max_tokens" chat_arguments) w)
  ∧ ((∃ payload options,
        sent (Simple.generate_text (H := sample_runtime) request w).2
          = [post_request generate_url payload]
        ∧ payload !! "options" = Some (PyDict options)
        ∧ options !! "num_predict" = None)
     ∧ Simple.generate_text (H := sample_runtime) request w
       = Simple.generate_text (H := sample_runtime) (with_max_tokens None request) w)
  ∧ ((∃ payload options,
        sent (Simple.chat_completion chat_request w).2
          = [post_request chat_url payload]
        ∧ payload !! "options" = Some (PyDict options)
        ∧ options !! "num_predict" = None)
     ∧ Simple.chat_completion chat_request w
       = Simple.chat_completion (chat_with_max_tokens None chat_request) w).
Proof.
  intros arguments chat_arguments request chat_request w.
  apply (@falsy_max_tokens_omits_num_predict sample_runtime
           arguments chat_arguments request chat_request w); reflexivity.
Defined.

(** ** Required fields *)

(** C3, as the code has it.  A generation or chat call whose required
    field is present but empty is not rejected on either transport: for the
    empty prompt and for the empty list of messages the handler issues one
    POST to the backend, which carries that prompt or message list. *)
Theorem empty_required_field_is_forwarded `{PyRuntime}
    (arguments chat_arguments : gmap string pyval)
    (request : Simple.GenerateRequest) (chat_request : Simple.ChatRequest) (w : world) :
  arguments !! "prompt" = Some (PyStr EmptyString) →
  chat_arguments !! "messages" = Some (PyList []) →
  Simple.prompt request = EmptyString →
  Simple.messages chat_request = [] →
  (∃ payload,
     sent (Mcp.handle_call_tool "generate_text" arguments w).2
       = sent w ++ [post_request generate_url payload]
     ∧ payload !! "prompt"
       = Some (let context := dict_get arguments "context" PyNone in
               if truthy context
               then PyStr ("Context:" +:+ LF +:+ py_str context +:+ LF +:+ LF
                           +:+ "Question: ")
               else PyStr EmptyString))
  ∧ (∃ payload,
       sent (Mcp.handle_call_tool "chat_completion" chat_arguments w).2
         = sent w ++ [post_request chat_url payload]
       ∧ payload !! "messages" = Some (PyList []))
  ∧ (∃ payload,
       sent (Simple.generate_text request w).2
         = sent w ++ [post_request generate_url payload]
       ∧ payload !! "prompt"
         = Some (match Simple.context request with
                 | Some (String a C) =>
                     PyStr ("Context:" +:+ LF +:+ String a C +:+ LF +:+ LF
                            +:+ "Question: ")
                 | _ => PyStr EmptyString
                 end))
  ∧ (∃ payload,
       sent (Simple.chat_completion chat_request w).2
         = sent w ++ [post_request chat_url payload]
       ∧ payload !! "messages" = Some (PyList [])).
Proof.
  intros Hprompt Hmessages Hrprompt Hrmessages. split_and!.
  - exists (tool_generate_payload arguments). rewrite tool_generate_text_run.
    split; [reflexivity|].
    unfold tool_generate_payload. rewrite generate_payload_prompt.
    rewrite (dict_get_Some _ _ _ _ Hprompt). cbn zeta.
    destruct (truthy _); reflexivity.
  - exists (tool_chat_payload chat_arguments). rewrite tool_chat_completion_run.
    split; [reflexivity|].
    unfold tool_chat_payload. rewrite chat_payload_messages.
    by rewrite (dict_get_Some _ _ _ _ Hmessages).
  - exists (direct_generate_payload request). rewrite direct_generate_text_run.
    split; [reflexivity|].
    unfold direct_generate_payload. rewrite generate_payload_prompt, Hrprompt.
    destruct (Simple.context request) as [[|a C]|]; reflexivity.
  - exists (direct_chat_payload chat_request). rewrite direct_chat_completion_run.
    split; [reflexivity|].
    unfold direct_chat_payload. rewrite chat_payload_messages.
    by rewrite Hrmessages.
Qed.

(** The empty prompt and the empty list of messages, on both transports. *)
Lemma empty_required_field_is_forwarded_witness :
  let w := answering sample_body in
  (∃ payload,
     sent (Mcp.handle_call_tool (H := sample_runtime) "generate_text"
             empty_prompt_arguments w).2
       = [post_request generate_url payload]
     ∧ payload !! "prompt" = Some (PyStr EmptyString))
  ∧ (∃ payload,
       sent (Mcp.handle_call_tool (H := sample_runtime) "chat_completion"
               empty_chat_arguments w).2
         = [post_request chat_url payload]
       ∧ payload !! "messages" = Some (PyList []))
  ∧ (∃ payload,
       sent (Simple.generate_text (H := sample_runtime) empty_prompt_request w).2
         = [post_request generate_url payload]
       ∧ payload !! "prompt" = Some (PyStr EmptyString))
  ∧ (∃ payload,
       sent (Simple.chat_completion empty_chat_request w).2
         = [post_request chat_url payload]
       ∧ payload !! "messages" = Some (PyList [])).
Proof.
  exact (@empty_required_field_is_forwarded sample_runtime
           empty_prompt_arguments empty_chat_arguments
           empty_prompt_request empty_chat_request (answering sample_body)
           eq_refl eq_refl eq_refl eq_refl).
Defined.

(** C3, counterexample.  Against a backend that answers, a generation call
    with the empty prompt and a chat call with the empty list of messages
    are posted to the backend and answered from its answer, on the direct
    transport and on the tool-style transport: none is rejected. *)
Lemma empty_prompt_reaches_backend :
  let w := answering sample_body in
  let w' := answering sample_chat_body in
  let posted : gmap string pyval :=
    {[ "model" := PyStr "llama3.2:latest";
       "prompt" := PyStr EmptyString;
       "stream" := PyBool false;
       "options" := PyDict {[ "temperature" := PyFloat float_0_7 ]} ]} in
  let chat_posted : gmap string pyval :=
    {[ "model" := PyStr "llama3.2:latest";
       "messages" := PyList [];
       "stream" := PyBool false;
       "options" := PyDict {[ "temperature" := PyFloat float_0_7 ]} ]} in
  Simple.prompt empty_prompt_request = EmptyString
  ∧ sent (Simple.generate_text (H := sample_runtime) empty_prompt_request w).2
    = [post_request generate_url posted]
  ∧ (∃ out, (Simple.generate_text (H := sample_runtime) empty_prompt_request w).1 = Ok out
            ∧ out !! "text" = Some (PyStr "Graphs represent entities as nodes."))
  ∧ empty_prompt_arguments !! "prompt" = Some (PyStr EmptyString)
  ∧ sent (Mcp.handle_call_tool (H := sample_runtime) "generate_text"
            empty_prompt_arguments w).2
    = [post_request generate_url posted]
  ∧ (Mcp.handle_call_tool (H := sample_runtime) "generate_text"
       empty_prompt_arguments w).1
    = Ok (text_content "Graphs represent entities as nodes.")
  ∧ Simple.messages empty_chat_request = []
  ∧ sent (Simple.chat_completion empty_chat_request w').2
    = [post_request chat_url chat_posted]
  ∧ (∃ out, (Simple.chat_completion empty_chat_request w').1 = Ok out)
  ∧ empty_chat_arguments !! "messages" = Some (PyList [])
  ∧ sent (Mcp.handle_call_tool (H := sample_runtime) "chat_completion"
            empty_chat_arguments w').2
    = [post_request chat_url chat_posted]
  ∧ (Mcp.handle_call_tool (H := sample_runtime) "chat_completion"
       empty_chat_arguments w').1
    = Ok (text_content "Hello!").
Proof.
  cbv zeta. split_and!; try reflexivity.
  - eexists. split; reflexivity.
  - eexists. reflexivity.
Qed.

(** ** Model listing *)

(** C4, as the code has it.  When the exchange for the model list fails
    (the call raises, the status is an error, or the body is not JSON), the
    tool-style client logs the failure and returns the empty list, and it
    never raises whatever the backend does; the direct transport's client
    logs the failure and raises it again, and [GET /models] turns it into
    an error of status 500 whose detail is "Failed to list models: "
    followed by the reason.  Each makes the one request and logs the one
    record. *)
Theorem list_models_on_failure (w : world) (e : exn) :
  failure_of (net w (get_request tags_url)) = Some e →
  let failed :=
    {| net := net w;
       sent := sent w ++ [get_request tags_url];
       logged := logged w ++ [("ERROR", "Failed to list models: " +:+ exn_str e)] |} in
  Mcp.list_models Mcp.ollama w = (Ok (PyList []), failed)
  ∧ (∀ w', ∃ models, (Mcp.list_models Mcp.ollama w').1 = Ok models)
  ∧ Simple.list_models Simple.ollama w = (Raise e, failed)
  ∧ Simple.models_endpoint w
    = (Raise (HTTPException 500 ("Failed to list models: " +:+ exn_str e)), failed).
Proof.
  intros Hfail%failure_of_exchange failed. subst failed. split_and!.
  - rewrite mcp_list_models_run. cbn zeta.
    change (Mcp.base_url Mcp.ollama +:+ "/api/tags") with tags_url.
    unfold after_call. by rewrite Hfail.
  - intros w'. rewrite mcp_list_models_run. by eexists.
  - rewrite simple_list_models_run. cbn zeta.
    change (Simple.base_url Simple.ollama +:+ "/api/tags") with tags_url.
    unfold after_call. by rewrite Hfail.
  - unfold Simple.models_endpoint.
    unfold try_except at 1. unfold mbind at 1, io_mbind, io_bind.
    rewrite simple_list_models_run. cbn zeta.
    change (Simple.base_url Simple.ollama +:+ "/api/tags") with tags_url.
    unfold after_call. by rewrite Hfail.
Qed.

(** The model list with the backend unreachable. *)
Lemma list_models_on_failure_witness :
  let failed :=
    {| net := net unreachable;
       sent := [get_request tags_url];
       logged := [("ERROR", "Failed to list models: All connection attempts failed")] |} in
  failure_of (net unreachable (get_request tags_url)) = Some connect_error
  ∧ Mcp.list_models Mcp.ollama unreachable = (Ok (PyList []), failed)
  ∧ (∀ w', ∃ models, (Mcp.list_models Mcp.ollama w').1 = Ok models)
  ∧ Simple.list_models Simple.ollama unreachable = (Raise connect_error, failed)
  ∧ Simple.models_endpoint unreachable
    = (Raise (HTTPException 500 "Failed to list models: All connection attempts failed"),
       failed).
Proof.
  intros failed. split; [reflexivity|].
  exact (list_models_on_failure unreachable connect_error eq_refl).
Defined.

(** C4, counterexample.  With the backend unreachable, [list_models] of the
    direct transport's client raises the connection error instead of
    returning an empty sequence. *)
Lemma direct_list_models_raises :
  net unreachable (get_request tags_url) = Raise connect_error
  ∧ (Simple.list_models Simple.ollama unreachable).1 = Raise connect_error
  ∧ (Simple.list_models Simple.ollama unreachable).1 ≠ Ok (PyList []).
Proof. split_and!; [reflexivity | reflexivity | discriminate]. Qed.

(** ** Health *)

(** C7.  [check_health] never raises.  Its result is true exactly when the
    backend answers the version call with status 200; hence true only with
    a status of the success class, and false when the call fails (network
    error, timeout) or the status is not a success.  Both clients. *)
Theorem check_health_sound (m : Mcp.OllamaClient) (s : Simple.OllamaClient) (w : world) :
  (∃ healthy,
     (Mcp.check_health m w).1 = Ok healthy
     ∧ let answer := net w (get_request (Mcp.base_url m +:+ "/api/version")) in
       (healthy = true ↔ ∃ resp, answer = Ok resp ∧ resp_status resp = 200)
       ∧ (healthy = true → ∃ resp, answer = Ok resp ∧ is_success (resp_status resp) = true)
       ∧ (∀ e, answer = Raise e → healthy = false)
       ∧ (∀ resp, answer = Ok resp → is_success (resp_status resp) = false →
                  healthy = false))
  ∧ (∃ healthy,
       (Simple.check_health s w).1 = Ok healthy
       ∧ let answer := net w (get_request (Simple.base_url s +:+ "/api/version")) in
         (healthy = true ↔ ∃ resp, answer = Ok resp ∧ resp_status resp = 200)
         ∧ (healthy = true → ∃ resp, answer = Ok resp ∧ is_success (resp_status resp) = true)
         ∧ (∀ e, answer = Raise e → healthy = false)
         ∧ (∀ resp, answer = Ok resp → is_success (resp_status resp) = false →
                    healthy = false)).
Proof.
  assert (∀ answer : result exn response,
            let healthy := match answer with
                           | Ok resp => resp_status resp =? 200
                           | Raise _ => false
                           end in
            (healthy = true ↔ ∃ resp, answer = Ok resp ∧ resp_status resp = 200)
            ∧ (healthy = true →
               ∃ resp, answer = Ok resp ∧ is_success (resp_status resp) = true)
            ∧ (∀ e, answer = Raise e → healthy = false)
            ∧ (∀ resp, answer = Ok resp → is_success (resp_status resp) = false →
                       healthy = false)) as Hcases.
  { intros [resp|e]; cbn.
    - split_and!.
      + split.
        * intros Heq%Z.eqb_eq. by exists resp.
        * intros (resp' & [= <-] & Heq). by apply Z.eqb_eq.
      + intros Heq%Z.eqb_eq. exists resp. by rewrite Heq.
      + done.
      + intros resp' [= <-] Hstatus.
        destruct (Z.eqb_spec (resp_status resp) 200) as [Heq|]; [|done].
        by rewrite Heq in Hstatus.
    - split_and!; [|done..]. split; [done|]. by intros (resp & [=] & _). }
  split.
  - rewrite mcp_check_health_run. eexists. split; [reflexivity|]. apply Hcases.
  - rewrite simple_check_health_run. eexists. split; [reflexivity|]. apply Hcases.
Qed.

(** Health is false with the backend unreachable and true when it answers
    with status 200. *)
Lemma check_health_sound_witness :
  (Mcp.check_health Mcp.ollama unreachable).1 = Ok false
  ∧ (Simple.check_health Simple.ollama unreachable).1 = Ok false
  ∧ (Mcp.check_health Mcp.ollama (answering sample_body)).1 = Ok true
  ∧ (Simple.check_health Simple.ollama (answering sample_body)).1 = Ok true.
Proof.
  pose proof (check_health_sound Mcp.ollama Simple.ollama unreachable)
    as [(hm & Hm & _ & _ & Hm_down & _) (hs & Hs & _ & _ & Hs_down & _)].
  pose proof (check_health_sound Mcp.ollama Simple.ollama (answering sample_body))
    as [(hm' & Hm' & Hm_up & _) (hs' & Hs' & Hs_up & _)].
  rewrite Hm, Hs, Hm', Hs'.
  rewrite (Hm_down connect_error eq_refl), (Hs_down connect_error eq_refl).
  rewrite (proj2 Hm_up (ex_intro _ (reply sample_body) (conj eq_refl eq_refl))).
  rewrite (proj2 Hs_up (ex_intro _ (reply sample_body) (conj eq_refl eq_refl))).
  done.
Defined.

(** ** Failure reporting *)

Lemma sent_one_inv (l : list request) rq rq' : l ++ [rq] = l ++ [rq'] → rq = rq'.
Proof. by intros [= ->]%app_inv_head. Qed.

Lemma exchange_ok resp v :
  raise_for_status resp = None → json resp = Ok v → exchange (Ok resp) = Ok v.
Proof. intros Hstatus Hjson. unfold exchange. by rewrite Hstatus. Qed.

(** C6.  When the exchange a generate or chat call makes with the backend
    fails with [e], the tool-style transport returns normally, with one
    text block reading "Generation failed: " (or "Chat completion
    failed: ") followed by [str(e)]; the direct transport raises an
    HTTPException of status 500 whose detail is that same text; and on both
    the client has made the one request and logged the failure. *)
Theorem backend_failure_reported `{PyRuntime}
    (arguments chat_arguments : gmap string pyval)
    (request : Simple.GenerateRequest) (chat_request : Simple.ChatRequest) (w : world) :
  (∀ e,
     let rq := post_request generate_url (tool_generate_payload arguments) in
     failure_of (net w rq) = Some e →
     Mcp.handle_call_tool "generate_text" arguments w
     = (Ok (text_content ("Generation failed: " +:+ exn_str e)),
        {| net := net w;
           sent := sent w ++ [rq];
           logged := logged w ++ [("ERROR", "Generation failed: " +:+ exn_str e)] |}))
  ∧ (∀ e,
       let rq := post_request chat_url (tool_chat_payload chat_arguments) in
       failure_of (net w rq) = Some e →
       Mcp.handle_call_tool "chat_completion" chat_arguments w
       = (Ok (text_content ("Chat completion failed: " +:+ exn_str e)),
          {| net := net w;
             sent := sent w ++ [rq];
             logged := logged w
                       ++ [("ERROR", "Chat completion failed: " +:+ exn_str e)] |}))
  ∧ (∀ e,
       let rq := post_request generate_url (direct_generate_payload request) in
       failure_of (net w rq) = Some e →
       Simple.generate_text request w
       = (Raise (HTTPException 500 ("Generation failed: " +:+ exn_str e)),
          {| net := net w;
             sent := sent w ++ [rq];
             logged := logged w ++ [("ERROR", "Generation failed: " +:+ exn_str e)] |}))
  ∧ (∀ e,
       let rq := post_request chat_url (direct_chat_payload chat_request) in
       failure_of (net w rq) = Some e →
       Simple.chat_completion chat_request w
       = (Raise (HTTPException 500 ("Chat completion failed: " +:+ exn_str e)),
          {| net := net w;
             sent := sent w ++ [rq];
             logged := logged w
                       ++ [("ERROR", "Chat completion failed: " +:+ exn_str e)] |})).
Proof.
  split_and!; intros e rq; subst rq; intros Hfail%failure_of_exchange.
  - rewrite tool_generate_text_run. cbn zeta. unfold after_call. by rewrite Hfail.
  - rewrite tool_chat_completion_run. cbn zeta. unfold after_call. by rewrite Hfail.
  - rewrite direct_generate_text_run. cbn zeta. unfold after_call. by rewrite Hfail.
  - rewrite direct_chat_completion_run. cbn zeta. unfold after_call. by rewrite Hfail.
Qed.

(** Generation and chat with the backend unreachable, on both transports. *)
Lemma backend_failure_reported_witness :
  let failed rq label :=
    {| net := net unreachable;
       sent := [rq];
       logged := [("ERROR", label +:+ "All connection attempts failed")] |} in
  let generate_rq payload := post_request generate_url payload in
  let chat_rq payload := post_request chat_url payload in
  Mcp.handle_call_tool (H := sample_runtime) "generate_text" sample_arguments unreachable
  = (Ok (text_content "Generation failed: All connection attempts failed"),
     failed (generate_rq (tool_generate_payload (H := sample_runtime) sample_arguments))
            "Generation failed: ")
  ∧ Mcp.handle_call_tool (H := sample_runtime) "chat_completion" sample_chat_arguments
      unreachable
    = (Ok (text_content "Chat completion failed: All connection attempts failed"),
       failed (chat_rq (tool_chat_payload sample_chat_arguments))
              "Chat completion failed: ")
  ∧ Simple.generate_text (H := sample_runtime) sample_request unreachable
    = (Raise (HTTPException 500 "Generation failed: All connection attempts failed"),
       failed (generate_rq (direct_generate_payload (H := sample_runtime) sample_request))
              "Generation failed: ")
  ∧ Simple.chat_completion sample_chat_request unreachable
    = (Raise (HTTPException 500 "Chat completion failed: All connection attempts failed"),
       failed (chat_rq (direct_chat_payload sample_chat_request))
              "Chat completion failed: ").
Proof.
  intros failed generate_rq chat_rq.
  pose proof (@backend_failure_reported sample_runtime sample_arguments
                sample_chat_arguments sample_request sample_chat_request unreachable)
    as (Htool & Htool_chat & Hdirect & Hdirect_chat).
  split_and!.
  - exact (Htool connect_error eq_refl).
  - exact (Htool_chat connect_error eq_refl).
  - exact (Hdirect connect_error eq_refl).
  - exact (Hdirect_chat connect_error eq_refl).
Defined.

(** ** Evaluation time *)

(** C5, as the code has it.  On the direct transport, when the backend's
    answer carries the integer [eval_duration] [d], [POST /generate] and
    [POST /chat] report as [eval_duration_ms] the binary64 quotient of
    [float(d)] by [1e6] when [float(d)] is finite, 2_000_000 giving 2.0;
    when [d] is too large for a float, as 10^400 is, they fail with status
    500 and the OverflowError as detail.  The tool-style transport answers
    with the backend's text alone and reports no duration. *)
Theorem eval_duration_ms_on_direct_transport `{PyRuntime}
    (arguments : gmap string pyval)
    (request : Simple.GenerateRequest) (chat_request : Simple.ChatRequest) (w : world) :
  (∀ resp body d,
     net w (post_request generate_url (direct_generate_payload request)) = Ok resp →
     raise_for_status resp = None → json resp = Ok (PyDict body) →
     body !! "eval_duration" = Some (PyInt d) →
     (Simple.generate_text request w).1
     = match int_to_float d with
       | Ok x =>
           Ok {[ "text" := dict_get body "response" (PyStr EmptyString);
                 "model" := PyStr (Simple.model request);
                 "eval_count" := dict_get body "eval_count" (PyInt 0);
                 "eval_duration_ms" := PyFloat (SFdiv prec emax x float_1e6) ]}
       | Raise e => Raise (HTTPException 500 ("Generation failed: " +:+ exn_str e))
       end)
  ∧ (∀ resp body d,
       net w (post_request chat_url (direct_chat_payload chat_request)) = Ok resp →
       raise_for_status resp = None → json resp = Ok (PyDict body) →
       body !! "eval_duration" = Some (PyInt d) →
       (Simple.chat_completion chat_request w).1
       = match int_to_float d with
         | Ok x =>
             Ok {[ "message" := dict_get body "message" (PyDict ∅);
                   "model" := PyStr (Simple.chat_model chat_request);
                   "eval_count" := dict_get body "eval_count" (PyInt 0);
                   "eval_duration_ms" := PyFloat (SFdiv prec emax x float_1e6) ]}
         | Raise e => Raise (HTTPException 500 ("Chat completion failed: " +:+ exn_str e))
         end)
  ∧ int_to_float 2000000 = Ok float_2e6
  ∧ SFdiv prec emax float_2e6 float_1e6 = float_2_0
  ∧ int_to_float (10 ^ 400) = Raise (OverflowError "int too large to convert to float")
  ∧ (∀ resp body text,
       net w (post_request generate_url (tool_generate_payload arguments)) = Ok resp →
       raise_for_status resp = None → json resp = Ok (PyDict body) →
       body !! "response" = Some (PyStr text) →
       (Mcp.handle_call_tool "generate_text" arguments w).1 = Ok (text_content text)).
Proof.
  split_and!; [| |reflexivity|reflexivity|reflexivity|].
  - intros resp body d Hnet Hstatus Hjson Hd.
    rewrite direct_generate_text_run. cbn zeta. cbn [fst].
    rewrite Hnet, (exchange_ok _ _ Hstatus Hjson).
    unfold generate_text_answer. cbn.
    rewrite (dict_get_Some _ _ _ _ Hd). cbn.
    destruct (int_to_float d); reflexivity.
  - intros resp body d Hnet Hstatus Hjson Hd.
    rewrite direct_chat_completion_run. cbn zeta. cbn [fst].
    rewrite Hnet, (exchange_ok _ _ Hstatus Hjson).
    unfold chat_completion_answer. cbn.
    rewrite (dict_get_Some _ _ _ _ Hd). cbn.
    destruct (int_to_float d); reflexivity.
  - intros resp body text Hnet Hstatus Hjson Htext.
    rewrite tool_generate_text_run. cbn zeta. cbn [fst].
    rewrite Hnet, (exchange_ok _ _ Hstatus Hjson). cbn.
    by rewrite (dict_get_Some _ _ _ _ Htext).
Qed.

(** The scenario of 2_000_000 ns: 2.0 ms on the direct transport, the text
    alone on the tool-style transport; and a duration of 10^400 ns. *)
Lemma eval_duration_ms_on_direct_transport_witness :
  let w := answering sample_body in
  (Simple.generate_text (H := sample_runtime) sample_request w).1
  = Ok {[ "text" := PyStr "Graphs represent entities as nodes.";
          "model" := PyStr "llama3.2:latest";
          "eval_count" := PyInt 7;
          "eval_duration_ms" := PyFloat float_2_0 ]}
  ∧ (Simple.chat_completion sample_chat_request (answering sample_chat_body)).1
    = Ok {[ "message" := PyDict {[ "role" := PyStr "assistant";
                                   "content" := PyStr "Hello!" ]};
            "model" := PyStr "llama3.2:latest";
            "eval_count" := PyInt 3;
            "eval_duration_ms" := PyFloat float_2_0 ]}
  ∧ (Simple.generate_text (H := sample_runtime) sample_request
       (answering (body_with_duration (10 ^ 400)))).1
    = Raise (HTTPException 500 "Generation failed: int too large to convert to float")
  ∧ (Mcp.handle_call_tool (H := sample_runtime) "generate_text" sample_arguments w).1
    = Ok (text_content "Graphs represent entities as nodes.").
Proof.
  intros w.
  pose proof (@eval_duration_ms_on_direct_transport sample_runtime sample_arguments
                sample_request sample_chat_request w) as (Hgenerate & _ & _ & _ & _ & Htool).
  pose proof (@eval_duration_ms_on_direct_transport sample_runtime sample_arguments
                sample_request sample_chat_request (answering sample_chat_body))
    as (_ & Hchat & _).
  pose proof (@eval_duration_ms_on_direct_transport sample_runtime sample_arguments
                sample_request sample_chat_request
                (answering (body_with_duration (10 ^ 400)))) as (Hlarge & _).
  split_and!.
  - exact (Hgenerate (reply sample_body) _ 2000000 eq_refl eq_refl eq_refl eq_refl).
  - exact (Hchat (reply sample_chat_body) _ 2000000 eq_refl eq_refl eq_refl eq_refl).
  - exact (Hlarge (reply (body_with_duration (10 ^ 400))) _ (10 ^ 400)
             eq_refl eq_refl eq_refl eq_refl).
  - exact (Htool (reply sample_body) _ "Graphs represent entities as nodes."
             eq_refl eq_refl eq_refl eq_refl).
Defined.

(** C5, counterexample.  Two backend answers that differ only in
    [eval_duration], 2_000_000 and 4_000_000 ns, get the same answer from
    the tool-style transport, the text alone, while their durations in
    milliseconds differ: the tool-style transport reports no
    [eval_duration_ms]. *)
Lemma tool_transport_reports_no_duration :
  let run d := Mcp.handle_call_tool (H := sample_runtime) "generate_text"
                 sample_arguments (answering (body_with_duration d)) in
  (run 2000000).1 = Ok (text_content "Graphs represent entities as nodes.")
  ∧ (run 4000000).1 = (run 2000000).1
  ∧ py_truediv_float (PyInt 2000000) float_1e6 = Ok (PyFloat float_2_0)
  ∧ py_truediv_float (PyInt 4000000) float_1e6 ≠ Ok (PyFloat float_2_0)
  ∧ ¬ (∃ report : result exn (list Mcp.TextContent) → result exn pyval,
         ∀ d, report (run d).1 = py_truediv_float (PyInt d) float_1e6).
Proof.
  cbv zeta. split_and!; [reflexivity | reflexivity | reflexivity | discriminate |].
  intros [report Hreport].
  pose proof (Hreport 2000000) as H2. pose proof (Hreport 4000000) as H4.
  assert ((Mcp.handle_call_tool (H := sample_runtime) "generate_text" sample_arguments
             (answering (body_with_duration 4000000))).1
          = (Mcp.handle_call_tool (H := sample_runtime) "generate_text" sample_arguments
               (answering (body_with_duration 2000000))).1) as Hsame by reflexivity.
  rewrite Hsame, H2 in H4. discriminate H4.
Qed.

(** The quotient is the nearest binary64 number, not the rational
    [d / 10^6]: one nanosecond is reported as 4722366482869645 * 2^-72
    milliseconds, which is not 10^-6. *)
Lemma one_nanosecond_is_rounded :
  py_truediv_float (PyInt 1) float_1e6
  = Ok (PyFloat (S754_finite false 4722366482869645 (-72)))
  ∧ 4722366482869645 * 10 ^ 6 ≠ 2 ^ 72.
Proof. split; [reflexivity | discriminate]. Qed.

(** ** The two transports compared *)




(** * Further properties of the two servers *)

(** [len] counts characters, not bytes: an e with an acute accent, two
    bytes in the encoding, has length 1. *)
Example len_counts_characters :
  py_len (PyStr (String "195"%char (String "169"%char EmptyString))) = Ok (PyInt 1)
  ∧ py_iter (PyStr (String "195"%char (String "169"%char EmptyString)))
    = Ok [PyStr (String "195"%char (String "169"%char EmptyString))]
  ∧ py_len (PyStr "abc") = Ok (PyInt 3).
Proof. repeat split. Qed.

Section ToolSurface.
Context `{PyRuntime}.

(** ** Dispatch of tools and resources *)

Lemma tool_list_models_run arguments w :
  Mcp.handle_call_tool "list_models" arguments w =
    let rq := get_request tags_url in
    let r := v ← exchange (net w rq); py_get v "models" (PyList []) in
    let models := match r with Ok models => models | Raise _ => PyList [] end in
    let listed :=
      elements ← py_iter models;
      comprehension (λ model, py_get model "name" (PyStr "unknown")) elements in
    (Ok (match listed with
         | Ok model_list =>
             text_content
               (json_dumps
                  (PyDict {[ "available_models" := PyList model_list;
                             "count" := PyInt (Z.of_nat (length model_list)) ]}))
         | Raise e => text_content ("Failed to list models: " +:+ exn_str e)
         end),
     after_call w rq "Failed to list models: " r).
Proof.
  unfold Mcp.handle_call_tool. cbn [String.eqb Ascii.eqb Bool.eqb].
  unfold try_except at 1. unfold mbind at 1, io_mbind, io_bind.
  rewrite mcp_list_models_run. cbn zeta.
  change (Mcp.base_url Mcp.ollama +:+ "/api/tags") with tags_url.
  run_io.
  destruct (py_iter _) as [elements|e]; cbn; [|reflexivity].
  destruct (comprehension _ _); reflexivity.
Qed.

Lemma text_content_of_result (r : result exn pyval) content :
  r ≫= Mcp.TextContent_text = Ok content → ∃ s, [content] = text_content s.
Proof.
  destruct r as [v|e]; [|done]. cbn.
  destruct v; intros [= <-]. by eexists.
Qed.

Lemma not_listed_tool name :
  name ∉ listed_tool_names →
  String.eqb name "generate_text" = false
  ∧ String.eqb name "chat_completion" = false
  ∧ String.eqb name "list_models" = false.
Proof.
  intros Hname. split_and!; apply String.eqb_neq; intros ->; apply Hname;
    unfold listed_tool_names; cbn; rewrite !elem_of_cons; auto.
Qed.

End ToolSurface.

(** X1.  A call of a tool that is not listed raises ValueError, with the
    message "Unknown tool: " and the name; no request is made and nothing
    is logged. *)
Theorem unknown_tool_raises `{PyRuntime} (name : string) (arguments : gmap string pyval) (w : world) :
  name ∉ listed_tool_names →
  Mcp.handle_call_tool name arguments w
  = (Raise (ValueError ("Unknown tool: " +:+ name)), w).
Proof.
  intros (Hg & Hc & Hl)%not_listed_tool.
  unfold Mcp.handle_call_tool. by rewrite Hg, Hc, Hl.
Qed.

(** The tool [delete_model] is not one of the server's. *)
Lemma unknown_tool_raises_witness :
  Mcp.handle_call_tool (H := sample_runtime) "delete_model" ∅ unreachable
  = (Raise (ValueError "Unknown tool: delete_model"), unreachable).
Proof.
  apply (@unknown_tool_raises sample_runtime "delete_model" ∅ unreachable).
  refine (bool_decide_unpack _ _). exact I.
Defined.

(** X2.  A call of a listed tool never raises, whatever the arguments and
    whatever the backend does: it returns exactly one block of text. *)
Theorem listed_tool_returns_one_text `{PyRuntime} (tool : Mcp.Tool)
    (arguments : gmap string pyval) (w : world) :
  tool ∈ Mcp.handle_list_tools →
  ∃ s, (Mcp.handle_call_tool (Mcp.tool_name tool) arguments w).1 = Ok (text_content s).
Proof.
  unfold Mcp.handle_list_tools.
  rewrite !elem_of_cons, elem_of_nil. intros [->|[->|[->|[]]]]; cbn [Mcp.tool_name].
  - rewrite tool_generate_text_run. cbn zeta. cbn [fst].
    destruct (_ ≫= Mcp.TextContent_text) as [content|e] eqn:Hres; [|by eexists].
    apply text_content_of_result in Hres as [s ->]. by exists s.
  - rewrite tool_chat_completion_run. cbn zeta. cbn [fst].
    destruct (_ ≫= Mcp.TextContent_text) as [content|e] eqn:Hres; [|by eexists].
    apply text_content_of_result in Hres as [s ->]. by exists s.
  - rewrite tool_list_models_run. cbn zeta. cbn [fst].
    destruct (_ ≫= _) as [model_list|e]; by eexists.
Qed.

Lemma first_tool_listed : tool_at 0 ∈ Mcp.handle_list_tools.
Proof.
  exact (list_elem_of_lookup_2 Mcp.handle_list_tools 0%nat (tool_at 0) eq_refl).
Qed.

(** The tool listed first, [generate_text], against an unreachable backend. *)
Lemma listed_tool_returns_one_text_witness :
  tool_at 0 ∈ Mcp.handle_list_tools
  ∧ ∃ s, (Mcp.handle_call_tool (H := sample_runtime) (Mcp.tool_name (tool_at 0))
            sample_arguments unreachable).1
         = Ok (text_content s).
Proof.
  split; [exact first_tool_listed|].
  exact (@listed_tool_returns_one_text sample_runtime (tool_at 0) sample_arguments
           unreachable first_tool_listed).
Defined.

(** ** Input schemas and the arguments the handler reads *)

Lemma dict_get_insert_eq (d : gmap string pyval) k v dflt :
  dict_get (<[k := v]> d) k dflt = v.
Proof. unfold dict_get. by rewrite lookup_insert_eq. Qed.

Lemma dict_get_insert_ne (d : gmap string pyval) k k' v dflt :
  k ≠ k' → dict_get (<[k := v]> d) k' dflt = dict_get d k' dflt.
Proof. intros. unfold dict_get. by rewrite lookup_insert_ne. Qed.

Lemma dict_get_ext (d d' : gmap string pyval) k dflt :
  d !! k = d' !! k → dict_get d k dflt = dict_get d' k dflt.
Proof. unfold dict_get. by intros ->. Qed.

(** Rewrites reads of an updated argument dict to reads of the original. *)
Ltac dict_reads :=
  repeat first
    [ rewrite dict_get_delete_eq
    | rewrite dict_get_insert_eq
    | rewrite dict_get_delete_ne by done
    | rewrite dict_get_insert_ne by done ].

(** X3.  A tool call reads only the arguments its input schema declares:
    two argument dicts that agree on the declared properties get the same
    treatment, so that undeclared arguments are ignored. *)
Theorem undeclared_arguments_ignored `{PyRuntime} (tool : Mcp.Tool)
    (arguments arguments' : gmap string pyval) (w : world) :
  tool ∈ Mcp.handle_list_tools →
  (∀ k, k ∈ declared_properties (Mcp.inputSchema tool) →
        arguments !! k = arguments' !! k) →
  Mcp.handle_call_tool (Mcp.tool_name tool) arguments w
  = Mcp.handle_call_tool (Mcp.tool_name tool) arguments' w.
Proof.
  unfold Mcp.handle_list_tools.
  rewrite !elem_of_cons, elem_of_nil. intros [->|[->|[->|[]]]] Hagree;
    cbn [Mcp.tool_name Mcp.inputSchema] in *.
  - rewrite !tool_generate_text_run.
    assert (tool_generate_payload arguments = tool_generate_payload arguments') as ->;
      [|reflexivity].
    unfold tool_generate_payload.
    f_equal; apply dict_get_ext, Hagree; refine (bool_decide_unpack _ _); exact I.
  - rewrite !tool_chat_completion_run.
    assert (tool_chat_payload arguments = tool_chat_payload arguments') as ->;
      [|reflexivity].
    unfold tool_chat_payload.
    f_equal; apply dict_get_ext, Hagree; refine (bool_decide_unpack _ _); exact I.
  - by rewrite !tool_list_models_run.
Qed.

(** An argument [verbose], which the schema of [generate_text] does not
    declare, changes nothing. *)
Lemma undeclared_arguments_ignored_witness :
  tool_at 0 ∈ Mcp.handle_list_tools
  ∧ Mcp.handle_call_tool (H := sample_runtime) (Mcp.tool_name (tool_at 0))
      sample_arguments (answering sample_body)
    = Mcp.handle_call_tool (H := sample_runtime) (Mcp.tool_name (tool_at 0))
        (<["verbose" := PyBool true]> sample_arguments) (answering sample_body).
Proof.
  split; [exact first_tool_listed|].
  apply (@undeclared_arguments_ignored sample_runtime (tool_at 0) sample_arguments
           (<["verbose" := PyBool true]> sample_arguments) (answering sample_body)
           first_tool_listed).
  intros k Hk. symmetry. apply lookup_insert_ne. intros <-. revert Hk.
  refine (bool_decide_unpack (_ ∉ _) _). exact I.
Defined.

(** The arguments for which the schemas declare a default. *)
Lemma declared_default_cases (tool : Mcp.Tool) argument dflt :
  tool ∈ Mcp.handle_list_tools →
  declared_default (Mcp.inputSchema tool) argument = Some dflt →
  Mcp.tool_name tool ≠ "list_models"
  ∧ ((argument = "model" ∧ dflt = PyStr "llama3.2:latest")
     ∨ (argument = "temperature" ∧ dflt = PyFloat float_0_7)).
Proof.
  unfold Mcp.handle_list_tools.
  rewrite !elem_of_cons, elem_of_nil. intros [->|[->|[->|[]]]];
    unfold declared_default; cbn [Mcp.tool_name Mcp.inputSchema].
  - rewrite lookup_insert_ne, lookup_insert_eq by done.
    repeat (rewrite lookup_insert; case_decide; subst;
            [intros Hd; vm_compute in Hd;
             first [discriminate Hd
                   | injection Hd as <-; split; [done|]; (by left) || (by right)]|]).
    try (rewrite lookup_singleton; case_decide; subst;
         [intros Hd; vm_compute in Hd; done|]).
    rewrite ?lookup_empty. done.
  - rewrite lookup_insert_ne, lookup_insert_eq by done.
    repeat (rewrite lookup_insert; case_decide; subst;
            [intros Hd; vm_compute in Hd;
             first [discriminate Hd
                   | injection Hd as <-; split; [done|]; (by left) || (by right)]|]).
    try (rewrite lookup_singleton; case_decide; subst;
         [intros Hd; vm_compute in Hd; done|]).
    rewrite ?lookup_empty. done.
  - rewrite lookup_insert_ne, lookup_singleton_eq by done. by rewrite lookup_empty.
Qed.

(** X4.  The defaults the input schemas declare are the defaults the
    handler applies: leaving out an argument with a declared default is the
    same as passing that default. *)
Theorem schema_defaults_are_applied `{PyRuntime} (tool : Mcp.Tool)
    (argument : string) (dflt : pyval) (arguments : gmap string pyval) (w : world) :
  tool ∈ Mcp.handle_list_tools →
  declared_default (Mcp.inputSchema tool) argument = Some dflt →
  Mcp.handle_call_tool (Mcp.tool_name tool) (delete argument arguments) w
  = Mcp.handle_call_tool (Mcp.tool_name tool) (<[argument := dflt]> arguments) w.
Proof.
  intros Htool Hdflt.
  destruct (declared_default_cases _ _ _ Htool Hdflt) as [Hname Hcases].
  clear Hdflt. revert Htool Hname. unfold Mcp.handle_list_tools.
  rewrite !elem_of_cons, elem_of_nil. intros [->|[->|[->|[]]]] Hname;
    cbn [Mcp.tool_name] in *; [| |done].
  - rewrite !tool_generate_text_run.
    assert (tool_generate_payload (delete argument arguments)
            = tool_generate_payload (<[argument := dflt]> arguments)) as ->;
      [|reflexivity].
    unfold tool_generate_payload.
    destruct Hcases as [[-> ->]|[-> ->]]; by dict_reads.
  - rewrite !tool_chat_completion_run.
    assert (tool_chat_payload (delete argument arguments)
            = tool_chat_payload (<[argument := dflt]> arguments)) as ->;
      [|reflexivity].
    unfold tool_chat_payload.
    destruct Hcases as [[-> ->]|[-> ->]]; by dict_reads.
Qed.

(** Leaving out [temperature] is passing 0.7. *)
Lemma schema_defaults_are_applied_witness :
  tool_at 0 ∈ Mcp.handle_list_tools
  ∧ declared_default (Mcp.inputSchema (tool_at 0)) "temperature" = Some (PyFloat float_0_7)
  ∧ Mcp.handle_call_tool (H := sample_runtime) (Mcp.tool_name (tool_at 0))
      (delete "temperature" sample_arguments) (answering sample_body)
    = Mcp.handle_call_tool (H := sample_runtime) (Mcp.tool_name (tool_at 0))
        (<["temperature" := PyFloat float_0_7]> sample_arguments) (answering sample_body).
Proof.
  split; [exact first_tool_listed|]. split; [reflexivity|].
  exact (@schema_defaults_are_applied sample_runtime (tool_at 0) "temperature"
           (PyFloat float_0_7) sample_arguments (answering sample_body)
           first_tool_listed eq_refl).
Defined.

(** ** Resources *)

Section ResourceRuns.
Context `{PyRuntime}.

Lemma health_check_run w :
  Simple.health_check w =
    (Ok {[ "status" := PyStr (if backend_healthy w then "healthy" else "unhealthy");
           "ollama_connected" := PyBool (backend_healthy w) ]},
     after_request w (get_request version_url)).
Proof.
  unfold Simple.health_check.
  unfold mbind at 1, io_mbind, io_bind.
  rewrite simple_check_health_run. reflexivity.
Qed.

Lemma models_endpoint_run w :
  Simple.models_endpoint w =
    let rq := get_request tags_url in
    let r := exchange (net w rq) in
    (as_http_error "Failed to list models: " (models_endpoint_answer r),
     after_call w rq "Failed to list models: " r).
Proof.
  unfold Simple.models_endpoint.
  unfold try_except at 1. unfold mbind at 1, io_mbind, io_bind.
  rewrite simple_list_models_run. cbn zeta.
  change (Simple.base_url Simple.ollama +:+ "/api/tags") with tags_url.
  unfold models_endpoint_answer.
  destruct (exchange _) as [v|e]; cbn; [|reflexivity].
  run_io. destruct (py_get v "models" _) as [models|]; cbn; [|reflexivity].
  destruct (py_iter models) as [elements|]; cbn; [|reflexivity].
  destruct (comprehension _ elements) as [names|]; cbn; [|reflexivity].
  destruct (py_len models); reflexivity.
Qed.

End ResourceRuns.

(** X6.  Reading a URI that is not listed raises ValueError, with the
    message "Unknown resource: " and the URI, without any request to the
    backend; this holds for a URI handed as a [str] and for one handed as
    an [AnyUrl]. *)
Theorem unknown_resource_raises `{PyRuntime} (uri : Mcp.uri_value) (w : world) :
  Mcp.uri_str uri ∉ listed_resource_uris →
  Mcp.handle_read_resource uri w
  = (Raise (ValueError ("Unknown resource: " +:+ Mcp.uri_str uri)), w).
Proof.
  intros Huri.
  assert (Mcp.uri_eq uri "generation://models" = false) as Hm.
  { destruct uri as [s|s]; [|done]. apply String.eqb_neq. intros ->. apply Huri.
    unfold listed_resource_uris. cbn. rewrite !elem_of_cons. auto. }
  assert (Mcp.uri_eq uri "generation://health" = false) as Hh.
  { destruct uri as [s|s]; [|done]. apply String.eqb_neq. intros ->. apply Huri.
    unfold listed_resource_uris. cbn. rewrite !elem_of_cons. auto. }
  unfold Mcp.handle_read_resource. by rewrite Hm, Hh.
Qed.

(** There is no resource for the tools. *)
Lemma unknown_resource_raises_witness :
  Mcp.handle_read_resource (H := sample_runtime) (Mcp.UriStr "generation://tools")
    unreachable
  = (Raise (ValueError "Unknown resource: generation://tools"), unreachable).
Proof.
  apply (@unknown_resource_raises sample_runtime (Mcp.UriStr "generation://tools")
           unreachable).
  refine (bool_decide_unpack (_ ∉ _) _). exact I.
Defined.

(** X7.  [GET /health] never raises and makes one version call: it
    answers "healthy" with [ollama_connected] true when the backend answers
    that call with status 200, and "unhealthy" with [ollama_connected]
    false in every other case. *)
Theorem health_reports (w : world) :
  let healthy := backend_healthy w in
  Simple.health_check w
  = (Ok {[ "status" := PyStr (if healthy then "healthy" else "unhealthy");
           "ollama_connected" := PyBool healthy ]},
     after_request w (get_request version_url))
  ∧ (healthy = true
     ↔ ∃ resp, net w (get_request version_url) = Ok resp ∧ resp_status resp = 200).
Proof.
  intros healthy. split.
  - apply health_check_run.
  - subst healthy. unfold backend_healthy.
    destruct (net w _) as [resp|e].
    + rewrite Z.eqb_eq. split; [by exists resp|]. by intros (? & [= <-] & ?).
    + split; [done|]. by intros (? & [=] & _).
Qed.

(** ** Model listings *)

Lemma comprehension_length {E A B} (f : A → result E B) l l' :
  comprehension f l = Ok l' → length l' = length l.
Proof.
  revert l'. induction l as [|x l IH]; intros l'; cbn.
  - by intros [= <-].
  - destruct (f x) as [y|]; [|done]. cbn.
    destruct (comprehension f l) as [ys|]; [|done]. cbn.
    intros [= <-]. cbn. f_equal. by apply IH.
Qed.

Lemma comprehension_names dflt (entries : list pyval) :
  Forall (λ entry, is_dict entry = true) entries →
  comprehension (λ model, py_get model "name" dflt) entries
  = Ok (name_or dflt <$> entries).
Proof.
  induction 1 as [|entry entries Hentry _ IH]; [reflexivity|].
  cbn. destruct entry; try done. cbn. by rewrite IH.
Qed.

(** X8.  When the listing of models fails, the [list_models] tool does not
    report a failure: it answers with the JSON of an empty list of models
    and a count of 0; the failure only reaches the log. *)
Theorem list_models_tool_hides_failure `{PyRuntime}
    (arguments : gmap string pyval) (w : world) (e : exn) :
  failure_of (net w (get_request tags_url)) = Some e →
  let run := Mcp.handle_call_tool "list_models" arguments w in
  run.1 = Ok (text_content
                (json_dumps (PyDict {[ "available_models" := PyList [];
                                       "count" := PyInt 0 ]})))
  ∧ sent run.2 = sent w ++ [get_request tags_url]
  ∧ logged run.2 = logged w ++ [("ERROR", "Failed to list models: " +:+ exn_str e)].
Proof.
  intros Hfail%failure_of_exchange run. subst run.
  rewrite tool_list_models_run. cbn zeta. by rewrite Hfail.
Qed.

(** The tool with the backend unreachable. *)
Lemma list_models_tool_hides_failure_witness :
  let run := Mcp.handle_call_tool (H := sample_runtime) "list_models" ∅ unreachable in
  run.1 = Ok (text_content
                (json_dumps (PyRuntime := sample_runtime)
                   (PyDict {[ "available_models" := PyList [];
                              "count" := PyInt 0 ]})))
  ∧ sent run.2 = [get_request tags_url]
  ∧ logged run.2 = [("ERROR", "Failed to list models: All connection attempts failed")].
Proof.
  exact (@list_models_tool_hides_failure sample_runtime ∅ unreachable connect_error
           eq_refl).
Defined.

(** X9.  When the backend lists models as a JSON array of objects, the
    [list_models] tool reports the name of each, in order, with "unknown"
    for an entry without name, and [GET /models] reports the name of each
    with [None] for an entry without name; both count the entries. *)
Theorem model_names_listed `{PyRuntime}
    (arguments : gmap string pyval) (w : world)
    (resp : response) (body : gmap string pyval) (entries : list pyval) :
  net w (get_request tags_url) = Ok resp →
  raise_for_status resp = None →
  json resp = Ok (PyDict body) →
  body !! "models" = Some (PyList entries) →
  Forall (λ entry, is_dict entry = true) entries →
  (Mcp.handle_call_tool "list_models" arguments w).1
  = Ok (text_content
          (json_dumps
             (PyDict {[ "available_models" := PyList (name_or (PyStr "unknown") <$> entries);
                        "count" := PyInt (Z.of_nat (length entries)) ]})))
  ∧ (Simple.models_endpoint w).1
    = Ok {[ "models" := PyList (name_or PyNone <$> entries);
            "count" := PyInt (Z.of_nat (length entries)) ]}.
Proof.
  intros Hnet Hstatus Hjson Hmodels Hentries. split.
  - rewrite tool_list_models_run. cbn zeta. cbn [fst].
    rewrite Hnet, (exchange_ok _ _ Hstatus Hjson). cbn.
    rewrite (dict_get_Some _ _ _ _ Hmodels). cbn.
    rewrite (comprehension_names _ _ Hentries). by rewrite length_fmap.
  - rewrite models_endpoint_run. cbn zeta. cbn [fst].
    rewrite Hnet, (exchange_ok _ _ Hstatus Hjson).
    unfold models_endpoint_answer. cbn.
    rewrite (dict_get_Some _ _ _ _ Hmodels). cbn.
    by rewrite (comprehension_names _ _ Hentries).
Qed.

(** Two models, the second without name. *)
Lemma model_names_listed_witness :
  let w := answering sample_models in
  (Mcp.handle_call_tool (H := sample_runtime) "list_models" ∅ w).1
  = Ok (text_content
          (json_dumps (PyRuntime := sample_runtime)
             (PyDict {[ "available_models" := PyList [PyStr "llama3.2:latest";
                                                      PyStr "unknown"];
                        "count" := PyInt 2 ]})))
  ∧ (Simple.models_endpoint w).1
    = Ok {[ "models" := PyList [PyStr "llama3.2:latest"; PyNone];
            "count" := PyInt 2 ]}.
Proof.
  intros w.
  refine (@model_names_listed sample_runtime ∅ w (reply sample_models) _ _
            eq_refl eq_refl eq_refl eq_refl _).
  repeat constructor.
Defined.

(** X10.  Whenever [GET /models] answers, its [count] is the number of
    names in its [models]. *)
Theorem models_endpoint_count (w : world) (out : gmap string pyval) :
  (Simple.models_endpoint w).1 = Ok out →
  ∃ names, out !! "models" = Some (PyList names)
           ∧ out !! "count" = Some (PyInt (Z.of_nat (length names))).
Proof.
  rewrite models_endpoint_run. cbn zeta. cbn [fst].
  destruct (models_endpoint_answer _) as [out'|] eqn:Hanswer; [|done].
  intros [= <-]. revert Hanswer. unfold models_endpoint_answer.
  destruct (exchange _) as [v|]; [|done]. cbn.
  destruct (py_get v "models" _) as [models|]; [|done]. cbn.
  destruct (py_iter models) as [elements|] eqn:Hiter; [|done]. cbn.
  destruct (comprehension _ elements) as [names|] eqn:Hnames; [|done]. cbn.
  destruct (py_len models) as [count|] eqn:Hlen; [|done]. cbn.
  intros [= <-]. exists names. split; [reflexivity|].
  pose proof (comprehension_length _ _ _ Hnames) as Hlength.
  destruct models as [| | | |s|l|d]; simplify_eq/=.
  - by rewrite Hlength.
  - by rewrite Hlength.
  - by rewrite Hlength, !length_fmap, length_map_to_list.
Qed.

(** The sample listing. *)
Lemma models_endpoint_count_witness :
  ∃ names,
    ({[ "models" := PyList [PyStr "llama3.2:latest"; PyNone];
        "count" := PyInt 2 ]} : gmap string pyval) !! "models" = Some (PyList names)
    ∧ ({[ "models" := PyList [PyStr "llama3.2:latest"; PyNone];
          "count" := PyInt 2 ]} : gmap string pyval) !! "count"
      = Some (PyInt (Z.of_nat (length names))).
Proof.
  exact (models_endpoint_count (answering sample_models)
           {[ "models" := PyList [PyStr "llama3.2:latest"; PyNone];
              "count" := PyInt 2 ]} eq_refl).
Defined.

(** ** Startup *)

Section StartupRuns.
Context `{PyRuntime}.

Lemma main_startup_run w :
  Mcp.main_startup w =
    let w1 := after_request w (get_request version_url) in
    if backend_healthy w then
      let rq := get_request tags_url in
      let r := v ← exchange (net w rq); py_get v "models" (PyList []) in
      let models := match r with Ok models => models | Raise _ => PyList [] end in
      let w2 := after_call w1 rq "Failed to list models: " r in
      match py_len models with
      | Ok count =>
          (Ok (), after_log w2 "INFO"
                    ("Connected to Ollama. Available models: " +:+ py_str count))
      | Raise e => (Raise e, w2)
      end
    else
      (Ok (), after_log w1 "WARNING"
                "Ollama service not accessible at startup. Please ensure Ollama is running.").
Proof.
  unfold Mcp.main_startup.
  unfold mbind at 1, io_mbind, io_bind.
  rewrite mcp_check_health_run. cbn zeta.
  change (Mcp.base_url Mcp.ollama +:+ "/api/version") with version_url.
  fold (backend_healthy w). destruct (backend_healthy w); cbn [negb]; [|reflexivity].
  unfold mbind at 1, io_mbind, io_bind.
  rewrite mcp_list_models_run. cbn zeta.
  change (Mcp.base_url Mcp.ollama +:+ "/api/tags") with tags_url.
  run_io. destruct (py_len _); reflexivity.
Qed.

Lemma startup_event_run w :
  Simple.startup_event w =
    let w1 := after_request w (get_request version_url) in
    if backend_healthy w then
      let rq := get_request tags_url in
      let r := exchange (net w rq) in
      let w2 := after_call w1 rq "Failed to list models: " r in
      match (models ← r; listed ← py_get models "models" (PyList []); py_len listed) with
      | Ok model_count =>
          (Ok (), after_log w2 "INFO"
                    ("Connected to Ollama. Available models: " +:+ py_str model_count))
      | Raise e => (Raise e, w2)
      end
    else
      (Ok (), after_log w1 "WARNING" "Ollama service not accessible at startup!").
Proof.
  unfold Simple.startup_event.
  unfold mbind at 1, io_mbind, io_bind.
  rewrite simple_check_health_run. cbn zeta.
  change (Simple.base_url Simple.ollama +:+ "/api/version") with version_url.
  fold (backend_healthy w). destruct (backend_healthy w); cbn [negb]; [|reflexivity].
  unfold mbind at 1, io_mbind, io_bind.
  rewrite simple_list_models_run. cbn zeta.
  change (Simple.base_url Simple.ollama +:+ "/api/tags") with tags_url.
  run_io. destruct (match net w _ with Ok _ => _ | Raise _ => _ end) as [models|];
    cbn; [|reflexivity].
  destruct (py_get models _ _) as [listed|]; cbn; [|reflexivity].
  destruct (py_len listed); reflexivity.
Qed.

End StartupRuns.

(** X11.  When the backend does not answer the version call with status
    200 at startup, both servers go on: they make that one request, log one
    warning and raise nothing; the listing of models is not attempted. *)
Theorem startup_with_backend_down `{PyRuntime} (w : world) :
  backend_healthy w = false →
  Mcp.main_startup w
  = (Ok (),
     after_log (after_request w (get_request version_url)) "WARNING"
       "Ollama service not accessible at startup. Please ensure Ollama is running.")
  ∧ Simple.startup_event w
    = (Ok (),
       after_log (after_request w (get_request version_url)) "WARNING"
         "Ollama service not accessible at startup!").
Proof.
  intros Hdown. rewrite main_startup_run, startup_event_run. cbn zeta.
  by rewrite Hdown.
Qed.

(** Startup with the backend unreachable. *)
Lemma startup_with_backend_down_witness :
  Mcp.main_startup (H := sample_runtime) unreachable
  = (Ok (),
     {| net := net unreachable;
        sent := [get_request version_url];
        logged := [("WARNING",
                    "Ollama service not accessible at startup. Please ensure Ollama is running.")]
     |})
  ∧ Simple.startup_event (H := sample_runtime) unreachable
    = (Ok (),
       {| net := net unreachable;
          sent := [get_request version_url];
          logged := [("WARNING", "Ollama service not accessible at startup!")] |}).
Proof.
  exact (@startup_with_backend_down sample_runtime unreachable eq_refl).
Defined.

(** X12.  When the backend answers the version call with status 200 but
    the listing of models then fails with [e], the startup of the direct
    transport raises [e], while the startup of the tool-style transport
    logs the failure, then reports 0 available models and raises nothing. *)
Theorem startup_with_listing_failure `{PyRuntime} (w : world) (e : exn) :
  backend_healthy w = true →
  failure_of (net w (get_request tags_url)) = Some e →
  (Simple.startup_event w).1 = Raise e
  ∧ (Mcp.main_startup w).1 = Ok ()
  ∧ logged (Mcp.main_startup w).2
    = logged w ++ [("ERROR", "Failed to list models: " +:+ exn_str e);
                   ("INFO", "Connected to Ollama. Available models: 0")].
Proof.
  intros Hup Hfail%failure_of_exchange.
  rewrite main_startup_run, startup_event_run. cbn zeta.
  rewrite Hup, Hfail. cbn. split_and!; [done..|].
  by rewrite <- (assoc_L (++)).
Qed.

(** A backend that answers the version call and fails the listing. *)
Lemma startup_with_listing_failure_witness :
  let w := healthy_without_tags sample_body connect_error in
  (Simple.startup_event (H := sample_runtime) w).1 = Raise connect_error
  ∧ (Mcp.main_startup (H := sample_runtime) w).1 = Ok ()
  ∧ logged (Mcp.main_startup (H := sample_runtime) w).2
    = [("ERROR", "Failed to list models: All connection attempts failed");
       ("INFO", "Connected to Ollama. Available models: 0")].
Proof.
  exact (@startup_with_listing_failure sample_runtime
           (healthy_without_tags sample_body connect_error) connect_error
           eq_refl eq_refl).
Defined.

(** X13.  When the backend is healthy and lists its models as a JSON
    array, both servers log the number of entries at startup, after the
    version call and the listing call, and raise nothing. *)
Theorem startup_logs_model_count `{PyRuntime} (w : world)
    (resp : response) (body : gmap string pyval) (entries : list pyval) :
  backend_healthy w = true →
  net w (get_request tags_url) = Ok resp →
  raise_for_status resp = None →
  json resp = Ok (PyDict body) →
  body !! "models" = Some (PyList entries) →
  let after :=
    {| net := net w;
       sent := sent w ++ [get_request version_url; get_request tags_url];
       logged := logged w ++ [("INFO", "Connected to Ollama. Available models: "
                                       +:+ pretty (Z.of_nat (length entries)))] |} in
  Mcp.main_startup w = (Ok (), after) ∧ Simple.startup_event w = (Ok (), after).
Proof.
  intros Hup Hnet Hstatus Hjson Hmodels after. subst after.
  rewrite main_startup_run, startup_event_run. cbn zeta.
  rewrite Hup, Hnet, (exchange_ok _ _ Hstatus Hjson). cbn.
  rewrite (dict_get_Some _ _ _ _ Hmodels). cbn.
  unfold after_log, after_call, after_request. cbn.
  rewrite <- !(assoc_L (++)). done.
Qed.

(** Two models listed at startup. *)
Lemma startup_logs_model_count_witness :
  let w := answering sample_models in
  let after :=
    {| net := net w;
       sent := [get_request version_url; get_request tags_url];
       logged := [("INFO", "Connected to Ollama. Available models: 2")] |} in
  Mcp.main_startup (H := sample_runtime) w = (Ok (), after)
  ∧ Simple.startup_event (H := sample_runtime) w = (Ok (), after).
Proof.
  exact (@startup_logs_model_count sample_runtime (answering sample_models)
           (reply sample_models) _ _ eq_refl eq_refl eq_refl eq_refl eq_refl).
Defined.

(** ** The base URL *)

Lemma rstrip_slash_app_slash s : rstrip_slash (s +:+ "/") = rstrip_slash s.
Proof.
  induction s as [|c s IH]; [reflexivity|].
  change (rstrip_slash (String c s +:+ "/"))
    with (match rstrip_slash (s +:+ "/") with
          | EmptyString => if Ascii.eqb c "/" then EmptyString else String c EmptyString
          | String a r => String c (String a r)
          end).
  by rewrite IH.
Qed.

Lemma rstrip_slash_decompose s : ∃ n, s = rstrip_slash s +:+ slashes n.
Proof.
  induction s as [|c s [n Hn]]; [by exists 0%nat|].
  cbn [rstrip_slash]. destruct (rstrip_slash s) as [|a r].
  - destruct (Ascii.eqb_spec c "/") as [->|].
    + exists (S n). exact (f_equal (String "/") Hn).
    + exists n. exact (f_equal (String c) Hn).
  - exists n. exact (f_equal (String c) Hn).
Qed.

Lemma rstrip_slash_no_trailing s t : rstrip_slash s ≠ t +:+ "/".
Proof.
  revert t. induction s as [|c s IH]; intros t.
  - by destruct t.
  - cbn [rstrip_slash]. destruct (rstrip_slash s) as [|a r].
    + destruct (Ascii.eqb_spec c "/") as [->|Hc]; [by destruct t|].
      destruct t as [|b [|]]; cbn; try done. by intros [= ->].
    + destruct t as [|b t]; cbn; [done|].
      intros [= -> Hr]. by apply (IH t).
Qed.

(** X14.  A client keeps its base URL without the slashes at its end:
    what is removed are slashes only, the result does not end in a slash,
    and a URL given with one more slash yields the same client. *)
Theorem base_url_without_trailing_slash (url : string) :
  (∃ n, url = Mcp.base_url (Mcp.OllamaClient_init url) +:+ slashes n)
  ∧ (∀ t, Mcp.base_url (Mcp.OllamaClient_init url) ≠ t +:+ "/")
  ∧ Mcp.OllamaClient_init (url +:+ "/") = Mcp.OllamaClient_init url
  ∧ Simple.OllamaClient_init (url +:+ "/") = Simple.OllamaClient_init url
  ∧ Simple.base_url (Simple.OllamaClient_init url)
    = Mcp.base_url (Mcp.OllamaClient_init url).
Proof.
  unfold Mcp.OllamaClient_init, Simple.OllamaClient_init. cbn.
  split_and!.
  - apply rstrip_slash_decompose.
  - apply rstrip_slash_no_trailing.
  - by rewrite rstrip_slash_app_slash.
  - by rewrite rstrip_slash_app_slash.
  - reflexivity.
Qed.

(** ** The posted bodies *)

(** X15.  The body [generate] posts has the keys model, prompt, stream and
    options, and the key system exactly when a system instruction that
    Python takes as true is given: the instruction travels in its own field
    and is never put into the prompt; stream is always false.  Both clients
    post the same body, in one request. *)
Theorem generate_body_shape `{PyRuntime}
    (m : Mcp.OllamaClient) (s : Simple.OllamaClient)
    (prompt model system context temperature max_tokens : pyval) (w : world) :
  ∃ payload : gmap string pyval,
    sent (Mcp.generate m prompt model system context temperature max_tokens w).2
      = sent w ++ [post_request (Mcp.base_url m +:+ "/api/generate") payload]
    ∧ sent (Simple.generate s prompt model system context temperature max_tokens w).2
      = sent w ++ [post_request (Simple.base_url s +:+ "/api/generate") payload]
    ∧ dom payload = {[ "model"; "prompt"; "stream"; "options" ]}
                    ∪ (if truthy system then {[ "system" ]} else ∅)
    ∧ payload !! "system" = (if truthy system then Some system else None)
    ∧ payload !! "prompt"
      = Some (if truthy context
              then PyStr ("Context:" +:+ LF +:+ py_str context +:+ LF +:+ LF
                          +:+ "Question: " +:+ py_str prompt)
              else prompt)
    ∧ payload !! "model" = Some model
    ∧ payload !! "stream" = Some (PyBool false).
Proof.
  exists (generate_payload prompt model system context temperature max_tokens).
  rewrite mcp_generate_run, simple_generate_run. cbn zeta.
  split; [reflexivity|]. split; [reflexivity|].
  split; [|unfold generate_payload; destruct (truthy system); by split_and!].
  unfold generate_payload.
  destruct (truthy system); rewrite ?dom_insert_L, dom_singleton_L; set_solver.
Qed.

(** X16.  The body [chat] posts has exactly the keys model, messages,
    stream and options; the messages are forwarded as they are given and
    stream is false.  Both clients post the same body, in one request. *)
Theorem chat_body_shape (m : Mcp.OllamaClient) (s : Simple.OllamaClient)
    (messages model temperature max_tokens : pyval) (w : world) :
  ∃ payload : gmap string pyval,
    sent (Mcp.chat m messages model temperature max_tokens w).2
      = sent w ++ [post_request (Mcp.base_url m +:+ "/api/chat") payload]
    ∧ sent (Simple.chat s messages model temperature max_tokens w).2
      = sent w ++ [post_request (Simple.base_url s +:+ "/api/chat") payload]
    ∧ dom payload = {[ "model"; "messages"; "stream"; "options" ]}
    ∧ payload !! "messages" = Some messages
    ∧ payload !! "model" = Some model
    ∧ payload !! "stream" = Some (PyBool false).
Proof.
  exists (chat_payload messages model temperature max_tokens).
  rewrite mcp_chat_run, simple_chat_run. cbn zeta.
  split; [reflexivity|]. split; [reflexivity|].
  split; [|by split_and!].
  unfold chat_payload. rewrite !dom_insert_L, dom_singleton_L. set_solver.
Qed.

(** X17.  A [max_tokens] that Python takes as true is forwarded as
    [num_predict] beside the temperature, whatever it is; a negative number
    is forwarded like any other.  The temperature is always forwarded.
    Generate and chat, both clients. *)
Theorem truthy_max_tokens_forwarded `{PyRuntime}
    (m : Mcp.OllamaClient) (s : Simple.OllamaClient)
    (prompt messages model system context temperature max_tokens : pyval) (w : world) :
  truthy max_tokens = true →
  let options : gmap string pyval :=
    {[ "temperature" := temperature; "num_predict" := max_tokens ]} in
  ∃ payload chat_payload : gmap string pyval,
    sent (Mcp.generate m prompt model system context temperature max_tokens w).2
      = sent w ++ [post_request (Mcp.base_url m +:+ "/api/generate") payload]
    ∧ sent (Simple.generate s prompt model system context temperature max_tokens w).2
      = sent w ++ [post_request (Simple.base_url s +:+ "/api/generate") payload]
    ∧ sent (Mcp.chat m messages model temperature max_tokens w).2
      = sent w ++ [post_request (Mcp.base_url m +:+ "/api/chat") chat_payload]
    ∧ sent (Simple.chat s messages model temperature max_tokens w).2
      = sent w ++ [post_request (Simple.base_url s +:+ "/api/chat") chat_payload]
    ∧ payload !! "options" = Some (PyDict options)
    ∧ chat_payload !! "options" = Some (PyDict options).
Proof.
  intros Hmt options. subst options.
  eexists _, _.
  rewrite mcp_generate_run, simple_generate_run, mcp_chat_run, simple_chat_run.
  cbn zeta. split_and!; try reflexivity.
  - rewrite generate_payload_options, Hmt. do 2 f_equal.
  - rewrite chat_payload_options, Hmt. do 2 f_equal.
Qed.

(** A [max_tokens] of -1. *)
Lemma truthy_max_tokens_forwarded_witness :
  let w := answering sample_body in
  let options : gmap string pyval :=
    {[ "temperature" := PyFloat float_0_7; "num_predict" := PyInt (-1) ]} in
  ∃ payload chat_payload : gmap string pyval,
    sent (Mcp.generate (H := sample_runtime) Mcp.ollama (PyStr "Hello") (PyStr "m")
            PyNone PyNone (PyFloat float_0_7) (PyInt (-1)) w).2
      = [post_request generate_url payload]
    ∧ sent (Simple.generate (H := sample_runtime) Simple.ollama (PyStr "Hello") (PyStr "m")
              PyNone PyNone (PyFloat float_0_7) (PyInt (-1)) w).2
      = [post_request generate_url payload]
    ∧ sent (Mcp.chat Mcp.ollama (PyList []) (PyStr "m") (PyFloat float_0_7)
              (PyInt (-1)) w).2
      = [post_request chat_url chat_payload]
    ∧ sent (Simple.chat Simple.ollama (PyList []) (PyStr "m") (PyFloat float_0_7)
              (PyInt (-1)) w).2
      = [post_request chat_url chat_payload]
    ∧ payload !! "options" = Some (PyDict options)
    ∧ chat_payload !! "options" = Some (PyDict options).
Proof.
  exact (@truthy_max_tokens_forwarded sample_runtime Mcp.ollama Simple.ollama
           (PyStr "Hello") (PyList []) (PyStr "m") PyNone PyNone (PyFloat float_0_7)
           (PyInt (-1)) (answering sample_body) eq_refl).
Defined.

(** X18.  Listing the models and checking health take one GET each, to
    [/api/tags] and [/api/version] under the base URL, whether the backend
    answers or not: nothing is retried.  Checking health logs nothing. *)
Theorem discovery_makes_one_request (m : Mcp.OllamaClient) (s : Simple.OllamaClient)
    (w : world) :
  sent (Mcp.list_models m w).2 = sent w ++ [get_request (Mcp.base_url m +:+ "/api/tags")]
  ∧ sent (Simple.list_models s w).2
    = sent w ++ [get_request (Simple.base_url s +:+ "/api/tags")]
  ∧ (Mcp.check_health m w).2
    = after_request w (get_request (Mcp.base_url m +:+ "/api/version"))
  ∧ (Simple.check_health s w).2
    = after_request w (get_request (Simple.base_url s +:+ "/api/version")).
Proof.
  rewrite mcp_list_models_run, simple_list_models_run,
    mcp_check_health_run, simple_check_health_run.
  by split_and!.
Qed.

(** ** Answers of the handlers *)

Lemma py_truediv_float_is_float v y out :
  py_truediv_float v y = Ok out → ∃ f, out = PyFloat f.
Proof.
  destruct v; cbn; try done.
  - destruct (int_to_float _) as [x|]; [|done]. cbn. unfold float_truediv.
    destruct (float_is_zero y); [done|]. intros [= <-]. by eexists.
  - destruct (int_to_float _) as [x|]; [|done]. cbn. unfold float_truediv.
    destruct (float_is_zero y); [done|]. intros [= <-]. by eexists.
  - unfold float_truediv.
    destruct (float_is_zero y); [done|]. intros [= <-]. by eexists.
Qed.

Lemma py_truediv_float_not_number v y :
  is_number v = false →
  py_truediv_float v y
  = Raise (TypeError ("unsupported operand type(s) for /: '" +:+ type_name v
                      +:+ "' and 'float'")).
Proof. by destruct v. Qed.

Lemma py_get_not_dict v key dflt :
  is_dict v = false →
  py_get v key dflt
  = Raise (AttributeError ("'" +:+ type_name v +:+ "' object has no attribute 'get'")).
Proof. by destruct v. Qed.

(** X19.  When the backend answers a generate call with a JSON object that
    has none of the fields [response], [eval_count] and [eval_duration],
    the direct transport answers with the empty text, the model of the
    request, a count of 0 and a duration of 0.0 ms, and the tool-style
    transport with the empty text. *)
Theorem missing_fields_default `{PyRuntime}
    (arguments : gmap string pyval) (request : Simple.GenerateRequest) (w : world)
    (body body' : gmap string pyval) :
  exchange (net w (post_request generate_url (direct_generate_payload request)))
  = Ok (PyDict body) →
  exchange (net w (post_request generate_url (tool_generate_payload arguments)))
  = Ok (PyDict body') →
  body !! "response" = None → body !! "eval_count" = None →
  body !! "eval_duration" = None → body' !! "response" = None →
  (Simple.generate_text request w).1
  = Ok {[ "text" := PyStr EmptyString;
          "model" := PyStr (Simple.model request);
          "eval_count" := PyInt 0;
          "eval_duration_ms" := PyFloat (S754_zero false) ]}
  ∧ (Mcp.handle_call_tool "generate_text" arguments w).1 = Ok (text_content EmptyString).
Proof.
  intros Hdirect Htool Hresponse Hcount Hduration Hresponse'. split.
  - rewrite direct_generate_text_run. cbn zeta. cbn [fst]. rewrite Hdirect.
    unfold generate_text_answer. cbn.
    by rewrite (dict_get_None _ _ _ Hresponse), (dict_get_None _ _ _ Hcount),
      (dict_get_None _ _ _ Hduration).
  - rewrite tool_generate_text_run. cbn zeta. cbn [fst]. rewrite Htool. cbn.
    by rewrite (dict_get_None _ _ _ Hresponse').
Qed.

(** A backend that answers with an empty object. *)
Lemma missing_fields_default_witness :
  let w := answering (PyDict ∅) in
  (Simple.generate_text (H := sample_runtime) sample_request w).1
  = Ok {[ "text" := PyStr EmptyString;
          "model" := PyStr "llama3.2:latest";
          "eval_count" := PyInt 0;
          "eval_duration_ms" := PyFloat (S754_zero false) ]}
  ∧ (Mcp.handle_call_tool (H := sample_runtime) "generate_text" sample_arguments w).1
    = Ok (text_content EmptyString).
Proof.
  exact (@missing_fields_default sample_runtime sample_arguments sample_request
           (answering (PyDict ∅)) ∅ ∅ eq_refl eq_refl eq_refl eq_refl eq_refl eq_refl).
Defined.

(** X20.  Whenever [POST /generate] or [POST /chat] answers, the answer
    has exactly its four keys, its [model] is the model of the request,
    whatever the backend says, and its [eval_duration_ms] is a float. *)
Theorem direct_answer_shape `{PyRuntime}
    (request : Simple.GenerateRequest) (chat_request : Simple.ChatRequest) (w : world) :
  (∀ out, (Simple.generate_text request w).1 = Ok out →
     dom out = {[ "text"; "model"; "eval_count"; "eval_duration_ms" ]}
     ∧ out !! "model" = Some (PyStr (Simple.model request))
     ∧ ∃ ms, out !! "eval_duration_ms" = Some (PyFloat ms))
  ∧ (∀ out, (Simple.chat_completion chat_request w).1 = Ok out →
       dom out = {[ "message"; "model"; "eval_count"; "eval_duration_ms" ]}
       ∧ out !! "model" = Some (PyStr (Simple.chat_model chat_request))
       ∧ ∃ ms, out !! "eval_duration_ms" = Some (PyFloat ms)).
Proof.
  split; intros out.
  - rewrite direct_generate_text_run. cbn zeta. cbn [fst].
    destruct (generate_text_answer _ _) as [out'|] eqn:Hanswer; [|done].
    intros [= <-]. revert Hanswer. unfold generate_text_answer.
    destruct (exchange _) as [v|]; [|done]. cbn.
    destruct (py_get v "response" _) as [text|]; [|done]. cbn.
    destruct (py_get v "eval_count" _) as [n|]; [|done]. cbn.
    destruct (py_get v "eval_duration" _) as [d|]; [|done]. cbn.
    destruct (py_truediv_float d _) as [ms|] eqn:Hms; [|done]. cbn.
    intros [= <-]. apply py_truediv_float_is_float in Hms as [f ->].
    split_and!; [|done|by eexists].
    rewrite !dom_insert_L, dom_singleton_L. set_solver.
  - rewrite direct_chat_completion_run. cbn zeta. cbn [fst].
    destruct (chat_completion_answer _ _) as [out'|] eqn:Hanswer; [|done].
    intros [= <-]. revert Hanswer. unfold chat_completion_answer.
    destruct (exchange _) as [v|]; [|done]. cbn.
    destruct (py_get v "message" _) as [message|]; [|done]. cbn.
    destruct (py_get v "eval_count" _) as [n|]; [|done]. cbn.
    destruct (py_get v "eval_duration" _) as [d|]; [|done]. cbn.
    destruct (py_truediv_float d _) as [ms|] eqn:Hms; [|done]. cbn.
    intros [= <-]. apply py_truediv_float_is_float in Hms as [f ->].
    split_and!; [|done|by eexists].
    rewrite !dom_insert_L, dom_singleton_L. set_solver.
Qed.

(** A backend that names another model in its answer. *)
Lemma direct_answer_shape_witness :
  let w := answering (PyDict {[ "response" := PyStr "Hi"; "model" := PyStr "other" ]}) in
  let out : gmap string pyval :=
    {[ "text" := PyStr "Hi";
       "model" := PyStr "llama3.2:latest";
       "eval_count" := PyInt 0;
       "eval_duration_ms" := PyFloat (S754_zero false) ]} in
  (Simple.generate_text (H := sample_runtime) sample_request w).1 = Ok out
  ∧ dom out = {[ "text"; "model"; "eval_count"; "eval_duration_ms" ]}
  ∧ out !! "model" = Some (PyStr "llama3.2:latest")
  ∧ ∃ ms, out !! "eval_duration_ms" = Some (PyFloat ms).
Proof.
  intros w out. split; [reflexivity|].
  exact (proj1 (@direct_answer_shape sample_runtime sample_request sample_chat_request w)
           out eq_refl).
Defined.

(** X21.  When the backend answers with JSON that is not an object, both
    transports report the AttributeError of the failed [.get], naming the
    type of the value: the tool-style transport as text, the direct
    transport as the detail of an error of status 500.  Generate and
    chat. *)
Theorem non_object_answer_reported `{PyRuntime}
    (arguments chat_arguments : gmap string pyval)
    (request : Simple.GenerateRequest) (chat_request : Simple.ChatRequest)
    (w : world) (v : pyval) :
  is_dict v = false →
  (∀ rq, exchange (net w rq) = Ok v) →
  let reason := "'" +:+ type_name v +:+ "' object has no attribute 'get'" in
  (Mcp.handle_call_tool "generate_text" arguments w).1
  = Ok (text_content ("Generation failed: " +:+ reason))
  ∧ (Mcp.handle_call_tool "chat_completion" chat_arguments w).1
    = Ok (text_content ("Chat completion failed: " +:+ reason))
  ∧ (Simple.generate_text request w).1
    = Raise (HTTPException 500 ("Generation failed: " +:+ reason))
  ∧ (Simple.chat_completion chat_request w).1
    = Raise (HTTPException 500 ("Chat completion failed: " +:+ reason)).
Proof.
  intros Hv Hnet reason. subst reason.
  rewrite tool_generate_text_run, tool_chat_completion_run,
    direct_generate_text_run, direct_chat_completion_run.
  cbn zeta. cbn [fst]. rewrite !Hnet.
  unfold generate_text_answer, chat_completion_answer. cbn.
  rewrite !(py_get_not_dict _ _ _ Hv). by split_and!.
Qed.

(** A backend that answers with a JSON array. *)
Lemma non_object_answer_reported_witness :
  let w := answering (PyList []) in
  (Mcp.handle_call_tool (H := sample_runtime) "generate_text" sample_arguments w).1
  = Ok (text_content "Generation failed: 'list' object has no attribute 'get'")
  ∧ (Mcp.handle_call_tool (H := sample_runtime) "chat_completion"
       sample_chat_arguments w).1
    = Ok (text_content "Chat completion failed: 'list' object has no attribute 'get'")
  ∧ (Simple.generate_text (H := sample_runtime) sample_request w).1
    = Raise (HTTPException 500 "Generation failed: 'list' object has no attribute 'get'")
  ∧ (Simple.chat_completion sample_chat_request w).1
    = Raise (HTTPException 500
               "Chat completion failed: 'list' object has no attribute 'get'").
Proof.
  exact (@non_object_answer_reported sample_runtime sample_arguments
           sample_chat_arguments sample_request sample_chat_request
           (answering (PyList [])) (PyList []) eq_refl (λ _, eq_refl)).
Defined.

(** X22.  When the backend's answer has a text but an [eval_duration] that
    is not a number, the direct transport fails with status 500 on the
    division, naming the type, while the tool-style transport, which does
    not read the duration, returns the text. *)
Theorem non_numeric_duration `{PyRuntime}
    (arguments : gmap string pyval) (request : Simple.GenerateRequest) (w : world)
    (body : gmap string pyval) (text : string) (duration : pyval) :
  (∀ rq, exchange (net w rq) = Ok (PyDict body)) →
  body !! "response" = Some (PyStr text) →
  body !! "eval_duration" = Some duration →
  is_number duration = false →
  (Simple.generate_text request w).1
  = Raise (HTTPException 500
             ("Generation failed: unsupported operand type(s) for /: '"
              +:+ type_name duration +:+ "' and 'float'"))
  ∧ (Mcp.handle_call_tool "generate_text" arguments w).1 = Ok (text_content text).
Proof.
  intros Hnet Hresponse Hduration Hnumber.
  rewrite tool_generate_text_run, direct_generate_text_run.
  cbn zeta. cbn [fst]. rewrite !Hnet.
  unfold generate_text_answer. cbn.
  rewrite (dict_get_Some _ _ _ _ Hresponse), (dict_get_Some _ _ _ _ Hduration). cbn.
  by rewrite (py_truediv_float_not_number _ _ Hnumber).
Qed.

(** A duration given as a string. *)
Lemma non_numeric_duration_witness :
  let body : gmap string pyval :=
    {[ "response" := PyStr "Hi"; "eval_duration" := PyStr "2ms" ]} in
  let w := answering (PyDict body) in
  (Simple.generate_text (H := sample_runtime) sample_request w).1
  = Raise (HTTPException 500
             "Generation failed: unsupported operand type(s) for /: 'str' and 'float'")
  ∧ (Mcp.handle_call_tool (H := sample_runtime) "generate_text" sample_arguments w).1
    = Ok (text_content "Hi").
Proof.
  intros body w.
  exact (@non_numeric_duration sample_runtime sample_arguments sample_request w
           body "Hi" (PyStr "2ms") (λ _, eq_refl) eq_refl eq_refl eq_refl).
Defined.

Lemma comprehension_first_bad dflt (good : list pyval) (bad : pyval) (rest : list pyval) :
  Forall (λ entry, is_dict entry = true) good →
  is_dict bad = false →
  comprehension (λ model, py_get model "name" dflt) (good ++ bad :: rest)
  = Raise (AttributeError ("'" +:+ type_name bad +:+ "' object has no attribute 'get'")).
Proof.
  intros Hgood Hbad. induction Hgood as [|entry good Hentry _ IH]; cbn.
  - by rewrite (py_get_not_dict _ _ _ Hbad).
  - destruct entry; try done. cbn. by rewrite IH.
Qed.

(** X24.  When the backend lists its models as an array in which some
    entry is not an object, the listing fails on the first such entry with
    the AttributeError of its [.get]: the [list_models] tool answers with
    the text "Failed to list models: " and that reason, and [GET /models]
    with an error of status 500 and the same detail. *)
Theorem listing_with_bad_entry `{PyRuntime}
    (arguments : gmap string pyval) (w : world) (body : gmap string pyval)
    (good : list pyval) (bad : pyval) (rest : list pyval) :
  exchange (net w (get_request tags_url)) = Ok (PyDict body) →
  body !! "models" = Some (PyList (good ++ bad :: rest)) →
  Forall (λ entry, is_dict entry = true) good →
  is_dict bad = false →
  let reason := "'" +:+ type_name bad +:+ "' object has no attribute 'get'" in
  (Mcp.handle_call_tool "list_models" arguments w).1
  = Ok (text_content ("Failed to list models: " +:+ reason))
  ∧ (Simple.models_endpoint w).1
    = Raise (HTTPException 500 ("Failed to list models: " +:+ reason)).
Proof.
  intros Hnet Hmodels Hgood Hbad reason. subst reason. split.
  - rewrite tool_list_models_run. cbn zeta. cbn [fst]. rewrite Hnet. cbn.
    rewrite (dict_get_Some _ _ _ _ Hmodels). cbn.
    by rewrite (comprehension_first_bad _ _ _ _ Hgood Hbad).
  - rewrite models_endpoint_run. cbn zeta. cbn [fst]. rewrite Hnet.
    unfold models_endpoint_answer. cbn.
    rewrite (dict_get_Some _ _ _ _ Hmodels). cbn.
    by rewrite (comprehension_first_bad _ _ _ _ Hgood Hbad).
Qed.

(** A listing whose second entry is a string. *)
Lemma listing_with_bad_entry_witness :
  let body : gmap string pyval :=
    {[ "models" := PyList [PyDict {[ "name" := PyStr "llama3.2:latest" ]};
                           PyStr "mistral"] ]} in
  let w := answering (PyDict body) in
  (Mcp.handle_call_tool (H := sample_runtime) "list_models" ∅ w).1
  = Ok (text_content "Failed to list models: 'str' object has no attribute 'get'")
  ∧ (Simple.models_endpoint w).1
    = Raise (HTTPException 500
               "Failed to list models: 'str' object has no attribute 'get'").
Proof.
  intros body w.
  refine (@listing_with_bad_entry sample_runtime ∅ w body
            [PyDict {[ "name" := PyStr "llama3.2:latest" ]}] (PyStr "mistral") []
            eq_refl eq_refl _ eq_refl).
  repeat constructor.
Defined.
